(** * PMLB client: fetch / cache / filter / diff-report

    A shallow embedding of [pmlb/pmlb.py].  Python values are modelled as
    follows.

    - [str] is a Rocq [string] read as a sequence of 8-bit code points.
    - A pandas [DataFrame] is a list of column labels, the dtype of each
      column and a list of rows; a cell is missing ([NaN]), an integer
      ([Int], the cells of an [int64] column), a float ([Num], the value
      of a [float64] cell as a rational), or text ([Str]).  Boolean and
      date columns are not represented.
    - Exceptions are values of [exn]; a computation that can raise returns
      a [result].
    - The file system and the log of network requests form the [world],
      threaded through a state-and-exception monad [M].  The file system
      maps a path, the string handed to the operating system, to what is
      found there; two strings that name one file are two keys, so the
      model speaks for the paths the code itself passes and is silent
      on their aliases.
    - The remote blob store, the Catalog lists of [dataset_lists] and the
      pandas codecs are the fields of the class [Env]. *)

From Stdlib Require Import ZArith QArith Ascii String List Permutation.
From stdpp Require Import base option list gmap strings sorting.

Local Open Scope string_scope.
Local Open Scope list_scope.

(** ** Exceptions and results *)

Inductive exn : Type :=
  | ValueError (msg : string)
  | KeyError (key : string)
  | NameError (name : string)
  | TypeError
  | IndexError
  | ReaderError (class_name : string)
  | OSError
  | CalledProcessError.

Inductive result (A : Type) : Type :=
  | Ok (a : A)
  | Raise (e : exn).
Arguments Ok {A} a.
Arguments Raise {A} e.

Definition rbind {A B : Type} (r : result A) (k : A -> result B) : result B :=
  match r with
  | Ok a => k a
  | Raise e => Raise e
  end.

(** The one domain error of the library: both raise sites of [fetch_data]
    and [get_dataset_url] raise this very value. *)
Definition UnknownDataset : exn := ValueError "Dataset not found in PMLB.".

(** ** Strings *)

Definition sep : ascii := "/"%char.

Definition is_sep (c : ascii) : bool := Ascii.eqb c sep.

Definition str_startswith (s pre : string) : bool := String.prefix pre s.

Fixpoint str_endswith_go (s suf : string) (n : nat) : bool :=
  match n, s with
  | O, _ => String.eqb s suf
  | S n', String _ rest => str_endswith_go rest suf n'
  | S _, EmptyString => false
  end.

(** [s.endswith(suf)] *)
Definition str_endswith (s suf : string) : bool :=
  str_endswith_go s suf (String.length s - String.length suf).

(** Drop the longest suffix made of characters satisfying [P]. *)
Fixpoint rstrip_chars (P : ascii -> bool) (s : string) : string :=
  match s with
  | EmptyString => EmptyString
  | String c rest =>
      match rstrip_chars P rest with
      | EmptyString => if P c then EmptyString else String c EmptyString
      | r => String c r
      end
  end.

Fixpoint str_forallb (P : ascii -> bool) (s : string) : bool :=
  match s with
  | EmptyString => true
  | String c rest => P c && str_forallb P rest
  end.

Definition str_nonempty (s : string) : bool :=
  match s with
  | EmptyString => false
  | String _ _ => true
  end.

(** [posixpath.join(a, *p)] *)
Definition join_step (path b : string) : string :=
  if str_startswith b "/" then b
  else if negb (str_nonempty path) || str_endswith path "/" then path +:+ b
  else path +:+ "/" +:+ b.

Definition os_path_join (a : string) (p : list string) : string :=
  fold_left join_step p a.

(** Cut [p] after its last separator: [Some (p[:i], p[i:])] with
    [i = p.rfind('/') + 1], or [None] when [p] has no separator. *)
Fixpoint cut_last_sep (p : string) : option (string * string) :=
  match p with
  | EmptyString => None
  | String c rest =>
      match cut_last_sep rest with
      | Some (h, t) => Some (String c h, t)
      | None => if is_sep c then Some (String c EmptyString, rest) else None
      end
  end.

(** [posixpath.split(p)] *)
Definition os_path_split (p : string) : string * string :=
  let (head, tail) :=
    match cut_last_sep p with
    | Some ht => ht
    | None => (EmptyString, p)
    end in
  if str_nonempty head && negb (str_forallb is_sep head)
  then (rstrip_chars is_sep head, tail)
  else (head, tail).

(** ** Tabular data *)

Inductive cell : Type :=
  | NaN
  | Int (z : Z)
  | Num (q : Q)
  | Str (s : string).

(** The column dtypes [read_csv] infers for numbers and text. *)
Inductive dtype : Type := int64 | float64 | object.

Record DataFrame : Type := mkDataFrame {
  columns : list string;
  dtypes : list dtype;
  rows : list (list cell)
}.

(** pandas frames are rectangular: every row has one cell per column. *)
Definition rectangular (df : DataFrame) : Prop :=
  Forall (fun r => length r = length (columns df)) (rows df).

Definition notna (c : cell) : bool :=
  match c with
  | NaN => false
  | _ => true
  end.

Definition row_complete (r : list cell) : bool := forallb notna r.

(** [df.dropna(inplace=True)]: the frame bound to the name afterwards. *)
Definition DataFrame_dropna (df : DataFrame) : DataFrame :=
  {| columns := columns df;
     dtypes := dtypes df;
     rows := List.filter row_complete (rows df) |}.

Definition label_is (label c : string) : bool := String.eqb c label.

Definition drop_cells (label : string) (cols : list string)
    (r : list cell) : list cell :=
  map snd (List.filter (fun p => negb (label_is label (fst p))) (combine cols r)).

(** [df.drop(label, axis=1)] *)
Definition DataFrame_drop (label : string) (df : DataFrame) : result DataFrame :=
  if existsb (label_is label) (columns df)
  then Ok {| columns := List.filter (fun c => negb (label_is label c)) (columns df);
             dtypes := map snd (List.filter (fun p => negb (label_is label (fst p)))
                                  (combine (columns df) (dtypes df)));
             rows := map (drop_cells label (columns df)) (rows df) |}
  else Raise (KeyError label).

Fixpoint column_index (label : string) (cols : list string) : option nat :=
  match cols with
  | [] => None
  | c :: cols' =>
      if label_is label c then Some O
      else option_map S (column_index label cols')
  end.

(** [df[label]], the column as a series of cells. *)
Definition DataFrame_getitem (df : DataFrame) (label : string) : result (list cell) :=
  match column_index label (columns df) with
  | Some i => Ok (map (fun r => nth i r NaN) (rows df))
  | None => Raise (KeyError label)
  end.

(** [df.loc[mask]] for a boolean mask aligned with the rows. *)
Definition DataFrame_loc (df : DataFrame) (mask : list bool) : DataFrame :=
  {| columns := columns df;
     dtypes := dtypes df;
     rows := map fst (List.filter snd (combine (rows df) mask)) |}.

(** The dtype of the column [df[label]] (looked at only once the column
    is known to exist). *)
Definition DataFrame_dtype (df : DataFrame) (label : string) : dtype :=
  match column_index label (columns df) with
  | Some i => nth i (dtypes df) object
  | None => object
  end.

(** The float64 nearest to an integer, ties going to the even
    significand: what a cast of [int64] to [float64] gives.  Integers
    below [2^53] in absolute value are kept. *)
Definition float64_of_Z (z : Z) : Z :=
  let a := Z.abs z in
  if (a <? 2 ^ 53)%Z then z
  else
    let e := (Z.log2 a - 52)%Z in
    let m := Z.shiftr a e in
    let r := Z.land a (Z.ones e) in
    let half := Z.shiftl 1 (e - 1) in
    let m' :=
      if (half <? r)%Z || ((r =? half)%Z && Z.odd m) then (m + 1)%Z else m in
    (Z.sgn z * Z.shiftl m' e)%Z.

Definition is_object (dt : dtype) : bool :=
  match dt with object => true | _ => false end.

Definition is_float64 (dt : dtype) : bool :=
  match dt with float64 => true | _ => false end.

(** The one dtype of the array [df.values]: [object] as soon as one
    column is, else [float64] as soon as one column is, else [int64]. *)
Definition common_dtype (dts : list dtype) : dtype :=
  if existsb is_object dts then object
  else if existsb is_float64 dts then float64
  else int64.

(** A cell in an array of dtype [dt]: an integer in a [float64] array is
    cast; everything else is kept. *)
Definition cast_cell (dt : dtype) (c : cell) : cell :=
  match dt, c with
  | float64, Int z => Num (inject_Z (float64_of_Z z))
  | _, _ => c
  end.

(** [df.values]: the rows as one NumPy array of the common dtype. *)
Definition DataFrame_values (df : DataFrame) : list (list cell) :=
  map (map (cast_cell (common_dtype (dtypes df)))) (rows df).

(** A list without its entry at position [k]. *)
Definition drop_nth {A : Type} (k : nat) (l : list A) : list A :=
  firstn k l ++ skipn (S k) l.

(** What [fetch_data] hands back: the frame, or the [(X, y)] pair of
    [.values] arrays. *)
Inductive fetched : Type :=
  | Frame (dataset : DataFrame)
  | Xy (X : list (list cell)) (y : list cell).

Definition fetched_rows (r : fetched) : nat :=
  match r with
  | Frame d => length (rows d)
  | Xy X _ => length X
  end.

Definition fetched_complete (r : fetched) : Prop :=
  match r with
  | Frame d => Forall (fun row => row_complete row = true) (rows d)
  | Xy X y => Forall (fun row => row_complete row = true) X
              /\ Forall (fun c => notna c = true) y
  end.

(** ** Environment

    [dataset_lists] is not part of the sources at hand: its two lists are
    taken as parameters.  The remote host is a read-only blob store that
    answers a URL with a status code and a body, or not at all.  The pandas
    codecs are capabilities: [read_tsv_gz] stands for
    [pd.read_csv(_, sep='\t', compression='gzip')] on a byte stream,
    [to_tsv_gz] for [to_csv(_, sep='\t', compression='gzip', index=False)],
    [read_csv_plain] for [pd.read_csv] with its defaults.  On bytes a
    reader cannot turn into a frame it raises an exception of its own
    ([BadGzipFile], [EOFError], [EmptyDataError], [ParserError],
    [UnicodeDecodeError], ...): [read_tsv_gz_error] and
    [read_csv_plain_error] give the class of that exception. *)

Class Env : Type := {
  bytes : Type;
  classification_dataset_names : list string;
  regression_dataset_names : list string;
  remote : string -> option (Z * bytes);
  read_tsv_gz : bytes -> option DataFrame;
  read_tsv_gz_error : bytes -> string;
  to_tsv_gz : DataFrame -> bytes;
  read_csv_plain : bytes -> option DataFrame;
  read_csv_plain_error : bytes -> string
}.

Definition list_contains (x : string) (l : list string) : bool :=
  existsb (String.eqb x) l.

Definition GITHUB_URL : string :=
  "https://github.com/EpistasisLab/penn-ml-benchmarks/raw/master/datasets".

Definition suffix : string := ".tsv.gz".

Definition summary_url : string :=
  "https://raw.githubusercontent.com/EpistasisLab/penn-ml-benchmarks/master/datasets/all_summary_stats.csv".

(** ['{GITHUB_URL}/{DATASET_NAME}/{DATASET_NAME}{SUFFIX}'.format(...)] *)
Definition format_dataset_url (GITHUB_URL DATASET_NAME SUFFIX : string) : string :=
  GITHUB_URL +:+ "/" +:+ DATASET_NAME +:+ "/" +:+ DATASET_NAME +:+ SUFFIX.

(** Proper ancestors of a path: its prefixes that stop right before a
    separator, the empty prefix and prefixes ending in a separator left
    out. *)
Fixpoint ancestors_go (pre p : string) : list string :=
  match p with
  | EmptyString => []
  | String c rest =>
      (if is_sep c && str_nonempty pre && negb (str_endswith pre "/")
       then [pre] else [])
      ++ ancestors_go (pre +:+ String c EmptyString) rest
  end.

Definition ancestors (p : string) : list string := ancestors_go EmptyString p.

Section Model.
Context `{Env}.

Definition dataset_names : list string :=
  classification_dataset_names ++ regression_dataset_names.

(** *** The world: file system and network log *)

Inductive node : Type :=
  | File (content : bytes)
  | Dir.

Record world : Type := mkWorld {
  fs : gmap string node;
  net_log : list string
}.

Definition M (A : Type) : Type := world -> result A * world.

Definition ret {A : Type} (a : A) : M A := fun w => (Ok a, w).

Definition raise {A : Type} (e : exn) : M A := fun w => (Raise e, w).

Definition bind {A B : Type} (m : M A) (k : A -> M B) : M B :=
  fun w =>
    match m w with
    | (Ok a, w') => k a w'
    | (Raise e, w') => (Raise e, w')
    end.

Definition lift {A : Type} (r : result A) : M A := fun w => (r, w).

Notation "x <~ m ;; k" := (bind m (fun x => k))
  (at level 100, m at next level, right associativity).

Definition log_request (url : string) (w : world) : world :=
  {| fs := fs w; net_log := net_log w ++ [url] |}.

(** [requests.get(url).status_code]; an unreachable host raises. *)
Definition requests_get (url : string) : M Z :=
  fun w =>
    match remote url with
    | Some (status_code, _) => (Ok status_code, log_request url w)
    | None => (Raise OSError, log_request url w)
    end.

(** What a reader hands back: the frame, or its own exception, of the
    class named. *)
Definition parsed (o : option DataFrame) (class_name : string)
    : result DataFrame :=
  match o with
  | Some df => Ok df
  | None => Raise (ReaderError class_name)
  end.

(** [pd.read_csv(url, ...)]: one more request; the opener raises on an
    unreachable host and on a status outside 2xx. *)
Definition pd_read_csv_url (parse : bytes -> option DataFrame)
    (parse_error : bytes -> string) (url : string) : M DataFrame :=
  fun w =>
    match remote url with
    | Some (status_code, body) =>
        if ((200 <=? status_code) && (status_code <? 300))%Z
        then (parsed (parse body) (parse_error body), log_request url w)
        else (Raise OSError, log_request url w)
    | None => (Raise OSError, log_request url w)
    end.

(** [pd.read_csv(path, sep='\t', compression='gzip')] on a local path *)
Definition pd_read_csv_file (path : string) : M DataFrame :=
  fun w =>
    match fs w !! path with
    | Some (File content) =>
        (parsed (read_tsv_gz content) (read_tsv_gz_error content), w)
    | Some Dir => (Raise OSError, w)
    | None => (Raise OSError, w)
    end.

Definition os_path_exists (path : string) : M bool :=
  fun w =>
    match fs w !! path with
    | Some _ => (Ok true, w)
    | None => (Ok false, w)
    end.

Definition os_path_isdir (path : string) : M bool :=
  fun w =>
    match fs w !! path with
    | Some Dir => (Ok true, w)
    | _ => (Ok false, w)
    end.

Definition is_file (m : gmap string node) (path : string) : bool :=
  match m !! path with
  | Some (File _) => true
  | _ => false
  end.

(** [os.makedirs(name)]: the leaf and every missing intermediate
    directory are created, under the path strings [name] and its
    prefixes; it raises on the empty name, on a leaf that exists
    already, and on a component that is a regular file.  What the call
    does to other spellings of these paths is not recorded. *)
Definition os_makedirs (name : string) : M unit :=
  fun w =>
    if negb (str_nonempty name) then (Raise OSError, w)
    else match fs w !! name with
    | Some _ => (Raise OSError, w)
    | None =>
        if existsb (is_file (fs w)) (ancestors name) then (Raise OSError, w)
        else (Ok tt,
              {| fs := foldr (fun d m => <[d := Dir]> m) (fs w)
                         (name :: ancestors name);
                 net_log := net_log w |})
    end.

(** [df.to_csv(path, sep='\t', compression='gzip', index=False)]: the
    file is created or replaced under the path string [path]; it raises
    when [path] is a directory or its parent is not one (an empty
    parent is the working directory).  Other spellings of the path are
    not recorded. *)
Definition DataFrame_to_csv (df : DataFrame) (path : string) : M unit :=
  fun w =>
    match fs w !! path with
    | Some Dir => (Raise OSError, w)
    | _ =>
        let parent := fst (os_path_split path) in
        let parent_ok :=
          negb (str_nonempty parent) ||
          match fs w !! parent with Some Dir => true | _ => false end in
        if parent_ok
        then (Ok tt, {| fs := <[path := File (to_tsv_gz df)]> (fs w);
                        net_log := net_log w |})
        else (Raise OSError, w)
    end.

(** *** [get_dataset_url] (lines 99-109) *)
Definition get_dataset_url (GITHUB_URL dataset_name suffix : string) : M string :=
  let dataset_url := format_dataset_url GITHUB_URL dataset_name suffix in
  status_code <~ requests_get dataset_url ;;
  if negb (status_code =? 200)%Z then raise UnknownDataset
  else ret dataset_url.

Definition dataset_path (local_cache_dir dataset_name : string) : string :=
  os_path_join local_cache_dir [dataset_name; dataset_name +:+ suffix].

(** *** [fetch_data], lines 63-87: bind [dataset] *)
Definition load_dataset (dataset_name : string)
    (local_cache_dir : option string) : M DataFrame :=
  match local_cache_dir with
  | None =>
      if negb (list_contains dataset_name dataset_names)
      then raise UnknownDataset
      else
        dataset_url <~ get_dataset_url GITHUB_URL dataset_name suffix ;;
        pd_read_csv_url read_tsv_gz read_tsv_gz_error dataset_url
  | Some local_cache_dir =>
      let dataset_path := dataset_path local_cache_dir dataset_name in
      found <~ os_path_exists dataset_path ;;
      if found then pd_read_csv_file dataset_path
      else
        if negb (list_contains dataset_name dataset_names)
        then raise UnknownDataset
        else
          dataset_url <~ get_dataset_url GITHUB_URL dataset_name suffix ;;
          dataset <~ pd_read_csv_url read_tsv_gz read_tsv_gz_error dataset_url ;;
          let dataset_dir := fst (os_path_split dataset_path) in
          isdir <~ os_path_isdir dataset_dir ;;
          _ <~ (if negb isdir then os_makedirs dataset_dir else ret tt) ;;
          _ <~ DataFrame_to_csv dataset dataset_path ;;
          ret dataset
  end.

(** *** [fetch_data], lines 89-96: drop rows, shape the result *)
Definition shape_result (return_X_y dropna : bool)
    (dataset : DataFrame) : result fetched :=
  let dataset := if dropna then DataFrame_dropna dataset else dataset in
  if return_X_y then
    rbind (DataFrame_drop "target" dataset) (fun features =>
    let X := DataFrame_values features in
    rbind (DataFrame_getitem dataset "target") (fun y =>
    Ok (Xy X y)))
  else Ok (Frame dataset).

(** *** [fetch_data] (lines 38-96) *)
Definition fetch_data (dataset_name : string) (return_X_y : bool)
    (local_cache_dir : option string) (dropna : bool) : M fetched :=
  dataset <~ load_dataset dataset_name local_cache_dir ;;
  lift (shape_result return_X_y dropna dataset).

(** The validate-probe-download sequence of lines 64-68 and 78-82 in
    closed form (see [load_dataset_no_cache]). *)
Definition download (dataset_name : string) : M DataFrame :=
  fun w =>
    let url := format_dataset_url GITHUB_URL dataset_name suffix in
    if list_contains dataset_name dataset_names then
      match remote url with
      | None => (Raise OSError, log_request url w)
      | Some (status_code, body) =>
          if (status_code =? 200)%Z
          then (parsed (read_tsv_gz body) (read_tsv_gz_error body),
                log_request url (log_request url w))
          else (Raise UnknownDataset, log_request url w)
      end
    else (Raise UnknownDataset, w).

(** The cache write of lines 83-87 in closed form (see
    [load_dataset_miss]). *)
Definition cache_store (dataset : DataFrame) (dataset_path : string)
    : M DataFrame :=
  let dataset_dir := fst (os_path_split dataset_path) in
  isdir <~ os_path_isdir dataset_dir ;;
  _ <~ (if negb isdir then os_makedirs dataset_dir else ret tt) ;;
  _ <~ DataFrame_to_csv dataset dataset_path ;;
  ret dataset.

(** *** Arguments and name resolution of [filter_datasets] *)

Inductive pyval : Type :=
  | PNone
  | PInt (z : Z)
  | PFloat (q : Q)
  | PStr (s : string)
  | PObject (name : string).

Definition is_not_None (v : pyval) : bool :=
  match v with
  | PNone => false
  | _ => true
  end.

(** Names bound at module level by the imports, assignments and [def]s
    of [pmlb.py]. *)
Definition module_globals : list string :=
  [ "pd"; "os"; "classification_dataset_names"; "regression_dataset_names";
    "requests"; "warnings"; "subprocess"; "pathlib"; "dataset_names";
    "GITHUB_URL"; "suffix"; "fetch_data"; "get_dataset_url";
    "get_updated_datasets"; "filter_datasets" ].

Fixpoint frame_lookup (locals : list (string * pyval)) (name : string)
    : option pyval :=
  match locals with
  | [] => None
  | (n, v) :: locals' =>
      if String.eqb n name then Some v else frame_lookup locals' name
  end.

(** Reading a name: the function's locals, then the module globals
    (the builtins hold neither of the names the body reads). *)
Definition load_name (locals : list (string * pyval)) (name : string)
    : result pyval :=
  match frame_lookup locals name with
  | Some v => Ok v
  | None =>
      if list_contains name module_globals then Ok (PObject name)
      else Raise (NameError name)
  end.

Inductive cmp_op : Type := OpGe | OpLe | OpLt | OpEq.

Definition Q_cmp (op : cmp_op) (a b : Q) : bool :=
  match op with
  | OpGe => Qle_bool b a
  | OpLe => Qle_bool a b
  | OpLt => negb (Qle_bool b a)
  | OpEq => Qeq_bool a b
  end.

Definition str_cmp (op : cmp_op) (a b : string) : bool :=
  match op with
  | OpGe => String.leb b a
  | OpLe => String.leb a b
  | OpLt => String.ltb a b
  | OpEq => String.eqb a b
  end.

(** Two values that have no order: [==] is false, an ordering raises. *)
Definition incomparable (op : cmp_op) : result bool :=
  match op with
  | OpEq => Ok false
  | _ => Raise TypeError
  end.

(** One cell of a column of dtype [dt] against a scalar.  A missing cell
    compares false (in an [object] column against anything, in a
    numeric column against a number); numbers compare by value, an
    integer meeting a float in a numeric column being cast to
    [float64] first; text compares with text; anything else is
    [incomparable]. *)
Definition compare_cell (op : cmp_op) (dt : dtype) (c : cell) (v : pyval)
    : result bool :=
  match v, c with
  | PNone, _ => Ok false
  | PInt _, NaN => Ok false
  | PFloat _, NaN => Ok false
  | _, NaN => if is_object dt then Ok false else incomparable op
  | PInt z, Int a => Ok (Q_cmp op (inject_Z a) (inject_Z z))
  | PFloat b, Int a =>
      Ok (Q_cmp op (inject_Z (if is_object dt then a else float64_of_Z a)) b)
  | PInt z, Num a =>
      Ok (Q_cmp op a (inject_Z (if is_object dt then z else float64_of_Z z)))
  | PFloat b, Num a => Ok (Q_cmp op a b)
  | PStr b, Str a => Ok (str_cmp op a b)
  | _, _ => incomparable op
  end.

Fixpoint cells_compare (op : cmp_op) (dt : dtype) (series : list cell)
    (v : pyval) : result (list bool) :=
  match series with
  | [] => Ok []
  | c :: series' =>
      rbind (compare_cell op dt c v) (fun b =>
      rbind (cells_compare op dt series' v) (fun bs =>
      Ok (b :: bs)))
  end.

(** [series op v] for a series of dtype [dt].  A numeric column against
    text is settled by the dtypes alone, whatever the cells, also when
    there are none: [==] is false throughout and an ordering raises.
    Every other case goes cell by cell. *)
Definition series_compare (op : cmp_op) (dt : dtype) (series : list cell)
    (v : pyval) : result (list bool) :=
  match dt, v with
  | object, _ => cells_compare op dt series v
  | _, PStr _ =>
      match op with
      | OpEq => Ok (map (fun _ => false) series)
      | _ => Raise TypeError
      end
  | _, _ => cells_compare op dt series v
  end.

(** One constraint of [filter_datasets]:
    [if guard is not None: tempdf = tempdf.loc[tempdf[col] op bound]],
    where [guard] and [bound] are the names as spelled in the source. *)
Definition constrain (locals : list (string * pyval)) (guard col : string)
    (op : cmp_op) (bound : string) (tempdf : DataFrame) : result DataFrame :=
  rbind (load_name locals guard) (fun g =>
  if is_not_None g then
    rbind (DataFrame_getitem tempdf col) (fun series =>
    rbind (load_name locals bound) (fun b =>
    rbind (series_compare op (DataFrame_dtype tempdf col) series b) (fun mask =>
    Ok (DataFrame_loc tempdf mask))))
  else Ok tempdf).

(** *** [filter_datasets] (lines 137-188) *)
Definition filter_datasets
    (obs_min obs_max feat_min feat_max class_min class_max
     endpt max_imbalance task : pyval) : M (list cell) :=
  let locals :=
    [ ("obs_min", obs_min); ("obs_max", obs_max);
      ("feat_min", feat_min); ("feat_max", feat_max);
      ("class_min", class_min); ("class_max", class_max);
      ("endpt", endpt); ("max_imbalance", max_imbalance);
      ("task", task) ] in
  tempdf <~ pd_read_csv_url read_csv_plain read_csv_plain_error summary_url ;;
  lift (
    rbind (constrain locals "obs_min" "#instances" OpGe "obs_min" tempdf) (fun tempdf =>
    rbind (constrain locals "obs_max" "#instances" OpLe "obs_max" tempdf) (fun tempdf =>
    rbind (constrain locals "feat_Min" "#features" OpGe "feat_min" tempdf) (fun tempdf =>
    rbind (constrain locals "feat_Max" "#features" OpLe "feat_max" tempdf) (fun tempdf =>
    rbind (constrain locals "class_min" "#Classes" OpGe "class_min" tempdf) (fun tempdf =>
    rbind (constrain locals "class_max" "#Classes" OpLe "class_max" tempdf) (fun tempdf =>
    rbind (constrain locals "max_imbalance" "Imbalance_metric" OpLt "max_imbalance" tempdf) (fun tempdf =>
    rbind (constrain locals "endpt" "Endpoint_type" OpEq "endpt" tempdf) (fun tempdf =>
    rbind (constrain locals "task" "problem_type" OpEq "task" tempdf) (fun tempdf =>
    DataFrame_getitem tempdf "dataset")))))))))).

End Model.

Arguments node {_}.
Arguments world {_}.
Arguments M {_} A.

(** ** Diff-reporter *)

Definition code_in (c : ascii) (codes : list nat) : bool :=
  existsb (Nat.eqb (nat_of_ascii c)) codes.

(** The characters [str.rstrip()] removes (among 8-bit code points). *)
Definition is_whitespace (c : ascii) : bool :=
  code_in c [9; 10; 11; 12; 13; 28; 29; 30; 31; 32; 133; 160]%nat.

(** The line boundaries of [str.splitlines()] (among 8-bit code points). *)
Definition is_linebreak (c : ascii) : bool :=
  code_in c [10; 11; 12; 13; 28; 29; 30; 133]%nat.

Definition str_rstrip (s : string) : string := rstrip_chars is_whitespace s.

Definition push_char (c : ascii) (pieces : list string) : list string :=
  match pieces with
  | [] => [String c EmptyString]
  | x :: xs => String c x :: xs
  end.

(** [s.splitlines()]: a carriage return followed by a line feed is one
    boundary; no empty last line is produced. *)
Fixpoint str_splitlines (s : string) : list string :=
  match s with
  | EmptyString => []
  | String c rest =>
      if is_linebreak c then
        EmptyString ::
        (if Ascii.eqb c "013"%char then
           match rest with
           | String c' rest' =>
               if Ascii.eqb c' "010"%char then str_splitlines rest'
               else str_splitlines rest
           | EmptyString => str_splitlines rest
           end
         else str_splitlines rest)
      else push_char c (str_splitlines rest)
  end.

(** [s.split('/')] *)
Fixpoint str_split_sep (s : string) : list string :=
  match s with
  | EmptyString => [EmptyString]
  | String c rest =>
      if is_sep c then EmptyString :: str_split_sep rest
      else push_char c (str_split_sep rest)
  end.

Fixpoint leading_seps (s : string) : nat :=
  match s with
  | String c rest => if is_sep c then S (leading_seps rest) else O
  | EmptyString => O
  end.

(** The root of a POSIX path: none, ["/"], or ["//"] for exactly two
    leading separators. *)
Definition path_root (p : string) : list string :=
  match leading_seps p with
  | O => []
  | 2%nat => ["//"]
  | _ => ["/"]
  end.

Definition is_component (x : string) : bool :=
  str_nonempty x && negb (String.eqb x ".").

(** [pathlib.Path(p).parts] *)
Definition Path_parts (p : string) : list string :=
  path_root p ++ List.filter is_component (str_split_sep p).

(** [pathlib.Path(p).name] *)
Definition Path_name (p : string) : string :=
  let parts := Path_parts p in
  if Nat.eqb (length parts) (length (path_root p)) then EmptyString
  else List.last parts EmptyString.

(** [parts[0]] *)
Definition item_first (parts : list string) : result string :=
  match parts with
  | x :: _ => Ok x
  | [] => Raise IndexError
  end.

(** [parts[-2]] *)
Definition item_before_last (parts : list string) : result string :=
  match rev parts with
  | _ :: x :: _ => Ok x
  | _ => Raise IndexError
  end.

(** The body of the [for] loop, lines 119-125, on the two sets. *)
Definition visit_path (sets : gset string * gset string) (line : string)
    : result (gset string * gset string) :=
  let path := line in
  rbind (item_first (Path_parts path)) (fun first =>
  if negb (String.eqb first "datasets") then Ok sets
  else
    rbind
      (if str_endswith (Path_name path) ".tsv.gz"
       then rbind (item_before_last (Path_parts path)) (fun d =>
            Ok ({[ d ]} ∪ fst sets, snd sets))
       else Ok sets) (fun sets =>
    if String.eqb (Path_name path) "metadata.yaml"
    then rbind (item_before_last (Path_parts path)) (fun d =>
         Ok (fst sets, {[ d ]} ∪ snd sets))
    else Ok sets)).

Fixpoint visit_paths (sets : gset string * gset string) (lines : list string)
    : result (gset string * gset string) :=
  match lines with
  | [] => Ok sets
  | line :: lines' =>
      rbind (visit_path sets line) (fun sets' => visit_paths sets' lines')
  end.

(** [sorted(s)] for a set of strings *)
Definition sorted (s : gset string) : list string :=
  merge_sort String.le (elements s).

Definition diff_lines (res : string) : list string :=
  str_splitlines (str_rstrip res).

(** *** [get_updated_datasets] (lines 112-134)

    [check_output] is what [subprocess.check_output] gave: the text of
    [git diff --name-only HEAD HEAD~1], or the exception it raised.  The
    result is the pair [(changed_datasets, changed_metadatas)] of the
    returned dictionary. *)
Definition get_updated_datasets (check_output : result string)
    : result (list string * list string) :=
  rbind check_output (fun out =>
  let res := str_rstrip out in
  rbind (visit_paths (∅, ∅) (str_splitlines res)) (fun sets =>
  let changed_datasets := sorted (fst sets) in
  let changed_metadatas := sorted (snd sets) in
  Ok (changed_datasets, changed_metadatas))).

(** A character that is neither a path separator nor a line boundary. *)
Definition plain_char (c : ascii) : bool :=
  negb (is_sep c) && negb (is_linebreak c).

(** A line of the diff reports a change of the data file of dataset [n]:
    it lies under [datasets], its file name ends in [.tsv.gz] and [n] is
    the name of its parent directory. *)
Definition changed_data (line n : string) : Prop :=
  item_first (Path_parts line) = Ok "datasets"
  /\ str_endswith (Path_name line) ".tsv.gz" = true
  /\ item_before_last (Path_parts line) = Ok n.

(** Likewise for the metadata file of dataset [n]. *)
Definition changed_metadata (line n : string) : Prop :=
  item_first (Path_parts line) = Ok "datasets"
  /\ Path_name line = "metadata.yaml"
  /\ item_before_last (Path_parts line) = Ok n.

(** ** Sample data *)

Definition iris_frame : DataFrame :=
  {| columns := ["sepal"; "target"; "petal"];
     dtypes := [float64; float64; float64];
     rows := [ [Num 5; Num 0; Num 1];
               [NaN; Num 1; Num 4];
               [Num 6; Num 2; Num 5] ] |}.


Definition summary_frame : DataFrame :=
  {| columns := [ "dataset"; "#instances"; "#features"; "#Classes";
                  "Imbalance_metric"; "Endpoint_type"; "problem_type" ];
     dtypes := [ object; int64; int64; float64; float64; object; object ];
     rows := [ [Str "iris"; Int 150; Int 4; Num 3; Num 0; Str "categorical";
                Str "classification"];
               [Str "boston"; Int 506; Int 13; NaN; NaN; Str "continuous";
                Str "regression"] ] |}.

Definition iris_url : string :=
  "https://github.com/EpistasisLab/penn-ml-benchmarks/raw/master/datasets/iris/iris.tsv.gz".

(** A small environment: files hold frames as such, the remote serves
    [iris] and the summary table and answers 404 elsewhere. *)
Definition sample_env : Env :=
  {| bytes := DataFrame;
     classification_dataset_names := ["iris"; "ghost"];
     regression_dataset_names := ["boston"];
     remote := fun url =>
       if String.eqb url iris_url then Some (200%Z, iris_frame)
       else if String.eqb url summary_url then Some (200%Z, summary_frame)
       else Some (404%Z, mkDataFrame [] [] []);
     read_tsv_gz := Some;
     read_tsv_gz_error := fun _ => "ParserError";
     to_tsv_gz := fun df => df;
     read_csv_plain := Some;
     read_csv_plain_error := fun _ => "ParserError" |}.

Definition empty_world : @world sample_env :=
  {| fs := ∅; net_log := [] |}.


(** A second environment, whose remote serves for [iris] a frame that
    has no [target] column and no missing value. *)
Definition bare_frame : DataFrame :=
  {| columns := ["a"; "b"];
     dtypes := [float64; object];
     rows := [ [Num 1; Str "y"]; [Num 3; Str "x"] ] |}.

Definition bare_env : Env :=
  {| bytes := DataFrame;
     classification_dataset_names := ["iris"];
     regression_dataset_names := [];
     remote := fun url =>
       if String.eqb url iris_url then Some (200%Z, bare_frame)
       else Some (404%Z, mkDataFrame [] [] []);
     read_tsv_gz := Some;
     read_tsv_gz_error := fun _ => "ParserError";
     to_tsv_gz := fun df => df;
     read_csv_plain := Some;
     read_csv_plain_error := fun _ => "ParserError" |}.


(** A third environment, whose remote serves for [iris] a frame with an
    integer column beside a float column; the integer is [2^53 + 1]. *)
Definition wide_frame : DataFrame :=
  {| columns := ["id"; "weight"; "target"];
     dtypes := [int64; float64; int64];
     rows := [ [Int 9007199254740993; Num (1 # 2); Int 1] ] |}.

Definition wide_env : Env :=
  {| bytes := DataFrame;
     classification_dataset_names := ["iris"];
     regression_dataset_names := [];
     remote := fun url =>
       if String.eqb url iris_url then Some (200%Z, wide_frame)
       else Some (404%Z, mkDataFrame [] [] []);
     read_tsv_gz := Some;
     read_tsv_gz_error := fun _ => "ParserError";
     to_tsv_gz := fun df => df;
     read_csv_plain := Some;
     read_csv_plain_error := fun _ => "ParserError" |}.



(** The world left by a first fetch of [iris] into the cache [cache]. *)
Definition populated_world : @world sample_env :=
  snd (fetch_data (H := sample_env) "iris" false (Some "cache") true empty_world).

Definition iris_complete : DataFrame :=
  {| columns := ["sepal"; "target"; "petal"];
     dtypes := [float64; float64; float64];
     rows := [ [Num 5; Num 0; Num 1]; [Num 6; Num 2; Num 5] ] |}.

Definition sample_diff : string :=
  "datasets/iris/iris.tsv.gz" +:+ String "010"%char "" +:+
  "README.md" +:+ String "010"%char "" +:+
  "datasets/boston/metadata.yaml" +:+ String "010"%char "" +:+
  "datasets/adult/adult.tsv.gz" +:+ String "010"%char "" +:+
  "docs/iris/iris.tsv.gz" +:+ String "010"%char "" +:+
  "datasets/iris/metadata.yaml" +:+ String "010"%char "".

(** * Properties *)

(** ** The model on concrete inputs *)

Example os_path_join_cache :
  os_path_join "cache" ["iris"; "iris.tsv.gz"] = "cache/iris/iris.tsv.gz"
  /\ os_path_join "cache/" ["iris"; "iris.tsv.gz"] = "cache/iris/iris.tsv.gz"
  /\ os_path_join "cache" ["/iris"; "iris.tsv.gz"] = "/iris/iris.tsv.gz".
Proof. repeat split; reflexivity. Qed.

Example os_path_split_cache :
  os_path_split "cache/iris/iris.tsv.gz" = ("cache/iris", "iris.tsv.gz")
  /\ os_path_split "/x" = ("/", "x")
  /\ os_path_split "x" = ("", "x").
Proof. repeat split; reflexivity. Qed.

Example Path_parts_samples :
  Path_parts "datasets/iris/iris.tsv.gz" = ["datasets"; "iris"; "iris.tsv.gz"]
  /\ Path_parts "//a/./b/" = ["//"; "a"; "b"]
  /\ Path_parts "/datasets/x" = ["/"; "datasets"; "x"]
  /\ Path_parts "" = []
  /\ Path_name "datasets/iris/metadata.yaml" = "metadata.yaml".
Proof. repeat split; reflexivity. Qed.

Example float64_of_Z_samples :
  float64_of_Z 9007199254740993 = 9007199254740992%Z
  /\ float64_of_Z 9007199254740995 = 9007199254740996%Z
  /\ float64_of_Z (-9007199254740993) = (-9007199254740992)%Z
  /\ float64_of_Z 9007199254740991 = 9007199254740991%Z
  /\ float64_of_Z 9223372036854775807 = 9223372036854775808%Z.
Proof. repeat split; reflexivity. Qed.

Example DataFrame_values_samples :
  DataFrame_values wide_frame
  = [[Num 9007199254740992; Num (1 # 2); Num 1]]
  /\ DataFrame_values summary_frame = rows summary_frame.
Proof. split; reflexivity. Qed.

(** A numeric column against text is refused by its dtype, even without
    rows; in a text column a missing cell compares false. *)
Example series_compare_samples :
  series_compare OpGe int64 [] (PStr "x") = Raise TypeError
  /\ series_compare OpEq float64 [Num 1; NaN] (PStr "x") = Ok [false; false]
  /\ series_compare OpGe object [Str "b"; NaN] (PStr "a") = Ok [true; false]
  /\ series_compare OpGe object [Str "b"] (PInt 1) = Raise TypeError
  /\ series_compare OpGe int64 [Int 150; Int 506] (PInt 200) = Ok [false; true]
  /\ series_compare OpLt float64 [Num (1 # 2); NaN] (PInt 1) = Ok [true; false].
Proof. repeat split; reflexivity. Qed.

Example get_updated_datasets_sample :
  get_updated_datasets (Ok sample_diff)
  = Ok (["adult"; "iris"], ["boston"; "iris"]).
Proof. vm_compute. reflexivity. Qed.

(** A blank line inside the output has no first component. *)
Example get_updated_datasets_blank_line :
  get_updated_datasets (Ok (String "010"%char "datasets/a/a.tsv.gz"))
  = Raise IndexError.
Proof. vm_compute. reflexivity. Qed.

Example fetch_data_sample_miss :
  fst (fetch_data (H := sample_env) "iris" false (Some "cache") true empty_world)
  = Ok (Frame iris_complete)
  /\ net_log populated_world = [iris_url; iris_url]
  /\ fs populated_world !! "cache/iris" = Some Dir
  /\ fs populated_world !! "cache" = Some Dir.
Proof. repeat split; vm_compute; reflexivity. Qed.


Section Properties.
Context `{Env}.

(** Case analysis on the scrutinee of a [match] or [if] of the goal. *)
Ltac case_scrutinee :=
  match goal with
  | |- context [match ?x with _ => _ end] =>
      lazymatch x with
      | context [match _ with _ => _ end] => fail
      | _ => destruct x eqn:?
      end
  end.

(** ** Closed forms of the monadic code *)

Lemma load_dataset_no_cache name w :
  load_dataset name None w = download name w.
Proof.
  unfold load_dataset, download, get_dataset_url, requests_get,
    pd_read_csv_url, raise, ret, bind.
  destruct (list_contains name dataset_names); simpl; [|reflexivity].
  destruct (remote _) as [[s body]|] eqn:Hr; [|reflexivity].
  destruct (Z.eqb_spec s 200) as [->|Hs]; simpl; [|reflexivity].
  rewrite Hr. reflexivity.
Qed.

Lemma fetch_data_bind name rxy cache dropna w :
  fetch_data name rxy cache dropna w =
  match load_dataset name cache w with
  | (Ok d, w') => (shape_result rxy dropna d, w')
  | (Raise e, w') => (Raise e, w')
  end.
Proof. reflexivity. Qed.

Lemma shape_result_not_unknown rxy dropna d :
  shape_result rxy dropna d <> Raise UnknownDataset.
Proof.
  unfold shape_result, DataFrame_drop, DataFrame_getitem.
  destruct rxy; [|discriminate].
  destruct (existsb _ _); simpl; [|discriminate].
  destruct (column_index _ _); simpl; discriminate.
Qed.

Lemma parsed_not_unknown o c : parsed o c <> Raise UnknownDataset.
Proof. destruct o; discriminate. Qed.

(** ** Filter *)

Lemma constrain_feat_Min obs_min obs_max feat_min feat_max class_min
    class_max endpt max_imbalance task col op bound tempdf :
  constrain
    [ ("obs_min", obs_min); ("obs_max", obs_max);
      ("feat_min", feat_min); ("feat_max", feat_max);
      ("class_min", class_min); ("class_max", class_max);
      ("endpt", endpt); ("max_imbalance", max_imbalance);
      ("task", task) ] "feat_Min" col op bound tempdf
  = Raise (NameError "feat_Min").
Proof. reflexivity. Qed.

(** C1.  The claim is that [filter_datasets] returns a list for every
    combination of arguments once the summary table has been retrieved.
    The code does not: line 174 reads the name [feat_Min], which is
    bound nowhere (the parameter is [feat_min]), so for every
    combination of arguments and in every world the call ends in an
    exception, never in a list. *)
Theorem filter_datasets_always_raises
    (obs_min obs_max feat_min feat_max class_min class_max
     endpt max_imbalance task : pyval) (w : world) :
  exists e : exn,
    fst (filter_datasets obs_min obs_max feat_min feat_max class_min
           class_max endpt max_imbalance task w) = Raise e.
Proof.
  unfold filter_datasets, pd_read_csv_url, lift, bind.
  destruct (remote summary_url) as [[s body]|]; [|eauto].
  destruct ((200 <=? s)%Z && (s <? 300)%Z); [|eauto].
  destruct (read_csv_plain body) as [t|]; simpl; [|eauto].
  destruct (constrain _ "obs_min" _ _ _ t) as [t1|e1]; simpl; [|eauto].
  destruct (constrain _ "obs_max" _ _ _ t1) as [t2|e2]; simpl; [|eauto].
  eauto.
Qed.

(** ** Fetcher without a cache root *)


(** ** Fetcher with a cache root *)

Lemma load_dataset_hit name root w content :
  fs w !! dataset_path root name = Some (File content) ->
  load_dataset name (Some root) w
  = (parsed (read_tsv_gz content) (read_tsv_gz_error content), w).
Proof.
  intros Hf. unfold load_dataset, os_path_exists, pd_read_csv_file, bind.
  cbv zeta. rewrite !Hf. reflexivity.
Qed.

Lemma load_dataset_dir name root w :
  fs w !! dataset_path root name = Some Dir ->
  load_dataset name (Some root) w = (Raise OSError, w).
Proof.
  intros Hf. unfold load_dataset, os_path_exists, pd_read_csv_file, bind.
  cbv zeta. rewrite !Hf. reflexivity.
Qed.

Lemma load_dataset_miss name root w :
  fs w !! dataset_path root name = None ->
  load_dataset name (Some root) w =
  bind (download name)
       (fun dataset => cache_store dataset (dataset_path root name)) w.
Proof.
  intros Hf. unfold load_dataset, os_path_exists.
  unfold bind at 1. cbv zeta. rewrite Hf.
  unfold download, get_dataset_url, requests_get, pd_read_csv_url,
    cache_store, raise, ret, bind.
  destruct (list_contains name dataset_names); simpl; [|reflexivity].
  destruct (remote _) as [[s body]|] eqn:Hr; [|reflexivity].
  destruct (Z.eqb_spec s 200) as [->|Hs]; simpl; [|reflexivity].
  rewrite Hr. simpl. destruct (read_tsv_gz body); reflexivity.
Qed.

Lemma download_fs name w : fs (snd (download name w)) = fs w.
Proof.
  unfold download.
  destruct (list_contains name dataset_names); [|reflexivity].
  destruct (remote _) as [[s body]|]; [|reflexivity].
  destruct (s =? 200)%Z; reflexivity.
Qed.


(** The cache write either completes, leaving the serialized frame at
    the path, or stops with an [OSError]; it never touches the network. *)
Lemma cache_store_cases dataset path w :
  (exists w', cache_store dataset path w = (Ok dataset, w')
              /\ fs w' !! path = Some (File (to_tsv_gz dataset))
              /\ net_log w' = net_log w)
  \/ (exists w', cache_store dataset path w = (Raise OSError, w')
                 /\ net_log w' = net_log w).
Proof.
  unfold cache_store, os_path_isdir, os_makedirs, DataFrame_to_csv, ret, bind.
  repeat case_scrutinee; simpl;
    first [ left; eexists; split; [reflexivity|];
            split; [apply lookup_insert_eq|reflexivity]
          | right; eexists; split; reflexivity ].
Qed.

Lemma fetch_data_world name rxy cache dropna w :
  snd (fetch_data name rxy cache dropna w) = snd (load_dataset name cache w).
Proof.
  rewrite fetch_data_bind.
  destruct (load_dataset name cache w) as [[d|e] w']; reflexivity.
Qed.



(** C7.  A call that fails with [UnknownDataset] leaves the file system
    as it found it: no cache file and no directory is created. *)
Theorem fetch_data_unknown_keeps_fs
    (dataset_name : string) (return_X_y : bool)
    (local_cache_dir : option string) (dropna : bool) (w w' : world) :
  fetch_data dataset_name return_X_y local_cache_dir dropna w
  = (Raise UnknownDataset, w') ->
  fs w' = fs w.
Proof.
  rewrite fetch_data_bind.
  assert (Hshape : forall (d : DataFrame) (w1 : world),
            (shape_result return_X_y dropna d, w1) = (Raise UnknownDataset, w')
            -> False).
  { intros d w1 [= Hs _]. exact (shape_result_not_unknown _ _ _ Hs). }
  destruct local_cache_dir as [root|].
  - destruct (fs w !! dataset_path root dataset_name) as [[content|]|] eqn:Hf.
    + rewrite (load_dataset_hit _ _ _ _ Hf).
      destruct (read_tsv_gz content); simpl.
      * intros Hr. destruct (Hshape _ _ Hr).
      * discriminate.
    + rewrite (load_dataset_dir _ _ _ Hf). discriminate.
    + rewrite (load_dataset_miss _ _ _ Hf). unfold bind.
      pose proof (download_fs dataset_name w) as Hfs.
      destruct (download dataset_name w) as [[d|e] w1]; simpl in Hfs.
      * destruct (cache_store_cases d (dataset_path root dataset_name) w1)
          as [(w2 & -> & _)|(w2 & -> & _)].
        -- intros Hr. destruct (Hshape _ _ Hr).
        -- discriminate.
      * intros [= _ <-]. exact Hfs.
  - rewrite load_dataset_no_cache.
    pose proof (download_fs dataset_name w) as Hfs.
    destruct (download dataset_name w) as [[d|e] w1]; simpl in Hfs.
    + intros Hr. destruct (Hshape _ _ Hr).
    + intros [= _ <-]. exact Hfs.
Qed.



(** ** Shaping the result *)

Lemma dropna_rows_complete d :
  Forall (fun row => row_complete row = true) (rows (DataFrame_dropna d)).
Proof.
  apply List.Forall_forall. intros row Hin.
  apply List.filter_In in Hin. tauto.
Qed.

Lemma dropna_rectangular d : rectangular d -> rectangular (DataFrame_dropna d).
Proof.
  unfold rectangular. rewrite !List.Forall_forall. simpl.
  intros Hall row Hin. apply List.filter_In in Hin. apply Hall. tauto.
Qed.

Lemma drop_cells_complete label cols r :
  row_complete r = true -> row_complete (drop_cells label cols r) = true.
Proof.
  unfold row_complete, drop_cells. rewrite !forallb_forall.
  intros Hr c Hc. apply in_map_iff in Hc as [[l c'] [<- Hin]].
  apply List.filter_In in Hin as [Hin _].
  apply in_combine_r in Hin. auto.
Qed.

Lemma column_index_lt label cols i :
  column_index label cols = Some i -> (i < length cols)%nat.
Proof.
  revert i. induction cols as [|c cs IH]; intros i; simpl; [discriminate|].
  destruct (label_is label c).
  - intros [= <-]. lia.
  - destruct (column_index label cs) as [j|]; simpl; [|discriminate].
    intros [= <-]. specialize (IH j eq_refl). lia.
Qed.

Lemma nth_complete i (r : list cell) :
  (i < length r)%nat -> row_complete r = true -> notna (nth i r NaN) = true.
Proof.
  intros Hi Hr. unfold row_complete in Hr. rewrite forallb_forall in Hr.
  apply Hr. apply nth_In. exact Hi.
Qed.

Lemma cast_cell_notna dt c : notna (cast_cell dt c) = notna c.
Proof. destruct dt, c; reflexivity. Qed.

Lemma cast_row_complete dt r :
  row_complete (map (cast_cell dt) r) = row_complete r.
Proof.
  unfold row_complete. induction r as [|c r IH]; simpl; [reflexivity|].
  rewrite cast_cell_notna, IH. reflexivity.
Qed.

Lemma shape_result_rows rxy dropna d r :
  shape_result rxy dropna d = Ok r ->
  fetched_rows r = length (rows (if dropna then DataFrame_dropna d else d)).
Proof.
  unfold shape_result, DataFrame_drop, DataFrame_getitem.
  destruct rxy.
  - destruct (existsb _ _); simpl; [|discriminate].
    destruct (column_index _ _); simpl; [|discriminate].
    intros [= <-]. unfold DataFrame_values. simpl. rewrite !length_map.
    reflexivity.
  - intros [= <-]. reflexivity.
Qed.

Lemma shape_result_complete rxy d r :
  rectangular d ->
  shape_result rxy true d = Ok r -> fetched_complete r.
Proof.
  intros Hrect. unfold shape_result, DataFrame_drop, DataFrame_getitem.
  pose proof (dropna_rows_complete d) as Hc.
  pose proof (dropna_rectangular d Hrect) as Hr.
  destruct rxy.
  - destruct (existsb _ _); simpl; [|discriminate].
    destruct (column_index _ _) as [i|] eqn:Hi; simpl; [|discriminate].
    intros [= <-]. unfold DataFrame_values. simpl. split.
    + apply List.Forall_forall. intros row Hin.
      apply in_map_iff in Hin as [row1 [<- Hin]].
      apply in_map_iff in Hin as [row0 [<- Hin]].
      rewrite cast_row_complete. apply drop_cells_complete.
      rewrite List.Forall_forall in Hc. exact (Hc _ Hin).
    + apply List.Forall_forall. intros c Hin.
      apply in_map_iff in Hin as [row0 [<- Hin]].
      unfold rectangular in Hr. rewrite List.Forall_forall in Hc, Hr.
      apply nth_complete; [|exact (Hc _ Hin)].
      rewrite (Hr _ Hin). exact (column_index_lt _ _ _ Hi).
  - intros [= <-]. exact Hc.
Qed.

(** C5.  For a successful call whose parsed source ([dataset] at the end
    of lines 63-87, read from the cache file or downloaded) is [d]: with
    [dropna] set, no row of the result has a missing value; with
    [dropna] unset, the result has as many rows as [d]. *)
Theorem fetch_data_dropna
    (dataset_name : string) (return_X_y : bool)
    (local_cache_dir : option string) (dropna : bool)
    (w w1 w' : world) (d : DataFrame) (r : fetched) :
  rectangular d ->
  load_dataset dataset_name local_cache_dir w = (Ok d, w1) ->
  fetch_data dataset_name return_X_y local_cache_dir dropna w = (Ok r, w') ->
  (dropna = true -> fetched_complete r)
  /\ (dropna = false -> fetched_rows r = length (rows d)).
Proof.
  intros Hrect Hload. rewrite fetch_data_bind, Hload. intros [= Hs _].
  split; intros ->.
  - exact (shape_result_complete _ _ _ Hrect Hs).
  - exact (shape_result_rows _ _ _ _ Hs).
Qed.

Lemma drop_cells_absent label cols (r : list cell) :
  ~ In label cols -> drop_cells label cols r = firstn (length cols) r.
Proof.
  unfold drop_cells. revert r.
  induction cols as [|c cs IH]; intros r Hn; [reflexivity|].
  destruct r as [|x r]; [reflexivity|]. simpl.
  unfold label_is at 1.
  destruct (String.eqb_spec c label) as [->|Hne].
  - exfalso. apply Hn. left. reflexivity.
  - simpl. f_equal. apply IH. intros Hin. apply Hn. right. exact Hin.
Qed.

Lemma drop_cells_unique label pre post (r : list cell) :
  ~ In label pre -> ~ In label post ->
  length r = length (pre ++ label :: post) ->
  drop_cells label (pre ++ label :: post) r
  = firstn (length pre) r ++ skipn (S (length pre)) r.
Proof.
  revert r. induction pre as [|c cs IH]; intros r Hpre Hpost Hlen.
  - destruct r as [|x r]; [discriminate|]. simpl in Hlen.
    unfold drop_cells. simpl. unfold label_is at 1.
    rewrite String.eqb_refl. simpl.
    change (drop_cells label post r = r).
    rewrite (drop_cells_absent _ _ _ Hpost).
    apply firstn_all2. lia.
  - destruct r as [|x r]; [discriminate|]. simpl in Hlen.
    unfold drop_cells. simpl. unfold label_is at 1.
    destruct (String.eqb_spec c label) as [->|Hne].
    + exfalso. apply Hpre. left. reflexivity.
    + simpl. f_equal. apply IH; [|exact Hpost|lia].
      intros Hin. apply Hpre. right. exact Hin.
Qed.

Lemma column_index_unique label pre post :
  ~ In label pre ->
  column_index label (pre ++ label :: post) = Some (length pre).
Proof.
  induction pre as [|c cs IH]; intros Hpre; simpl.
  - unfold label_is. rewrite String.eqb_refl. reflexivity.
  - unfold label_is at 1. destruct (String.eqb_spec c label) as [->|Hne].
    + exfalso. apply Hpre. left. reflexivity.
    + rewrite IH; [reflexivity|]. intros Hin. apply Hpre. right. exact Hin.
Qed.

Lemma column_index_In label cols i :
  column_index label cols = Some i -> In label cols.
Proof.
  revert i. induction cols as [|c cs IH]; intros i; simpl; [discriminate|].
  unfold label_is at 1. destruct (String.eqb_spec c label) as [->|Hne].
  - intros _. left. reflexivity.
  - destruct (column_index label cs) as [j|]; simpl; [|discriminate].
    intros _. right. exact (IH j eq_refl).
Qed.

Lemma filter_combine_unique {A : Type} label pre post (r : list A) :
  ~ In label pre -> ~ In label post ->
  length r = length (pre ++ label :: post) ->
  map snd (List.filter (fun p => negb (label_is label (fst p)))
             (combine (pre ++ label :: post) r))
  = drop_nth (length pre) r.
Proof.
  assert (Habs : forall cols (l : list A), ~ In label cols ->
            map snd (List.filter (fun p => negb (label_is label (fst p)))
                       (combine cols l))
            = firstn (length cols) l).
  { induction cols as [|c cs IH]; intros l Hn; [reflexivity|].
    destruct l as [|x l]; [reflexivity|]. simpl.
    unfold label_is at 1.
    destruct (String.eqb_spec c label) as [->|Hne].
    - exfalso. apply Hn. left. reflexivity.
    - simpl. f_equal. apply IH. intros Hin. apply Hn. right. exact Hin. }
  unfold drop_nth. revert r.
  induction pre as [|c cs IH]; intros r Hpre Hpost Hlen.
  - destruct r as [|x r]; [discriminate|]. simpl in Hlen. simpl.
    unfold label_is at 1. rewrite String.eqb_refl. simpl.
    rewrite (Habs _ _ Hpost). change (skipn 0 r) with r.
    apply firstn_all2. lia.
  - destruct r as [|x r]; [discriminate|]. simpl in Hlen. simpl.
    unfold label_is at 1.
    destruct (String.eqb_spec c label) as [->|Hne].
    + exfalso. apply Hpre. left. reflexivity.
    + simpl. f_equal. apply IH; [|exact Hpost|lia].
      intros Hin. apply Hpre. right. exact Hin.
Qed.

(** C8 (amended).  Let [d] be the parsed source of a call and
    [dataset] what lines 89-90 leave of it.  With the flag unset the
    call returns [dataset] itself.  With the flag set a successful call
    returns a pair and [d] has a [target] column; when [target] labels
    exactly one column, at position [k], the labels are the cells at
    [k], row by row and as they are, and the features are the rows of
    [dataset] with the cell at [k] taken out, each cell converted to
    the one dtype of the array: an integer among float columns becomes
    the nearest float64, every other cell is kept; so where that one
    dtype is not float64 the features are those cells as they are. *)
Theorem fetch_data_return_X_y
    (dataset_name : string) (local_cache_dir : option string)
    (dropna : bool) (w w1 : world) (d : DataFrame) :
  load_dataset dataset_name local_cache_dir w = (Ok d, w1) ->
  let dataset := if dropna then DataFrame_dropna d else d in
  fetch_data dataset_name false local_cache_dir dropna w = (Ok (Frame dataset), w1)
  /\ (forall r w',
        fetch_data dataset_name true local_cache_dir dropna w = (Ok r, w') ->
        In "target" (columns d) /\ exists X y, r = Xy X y)
  /\ (forall pre post,
        rectangular d ->
        length (dtypes d) = length (columns d) ->
        columns d = pre ++ "target" :: post ->
        ~ In "target" pre -> ~ In "target" post ->
        let k := length pre in
        let dt := common_dtype (drop_nth k (dtypes d)) in
        fetch_data dataset_name true local_cache_dir dropna w
        = (Ok (Xy (map (fun row => map (cast_cell dt) (drop_nth k row))
                       (rows dataset))
                  (map (fun row => nth k row NaN) (rows dataset))),
           w1)
        /\ (dt <> float64 ->
            fetch_data dataset_name true local_cache_dir dropna w
            = (Ok (Xy (map (drop_nth k) (rows dataset))
                      (map (fun row => nth k row NaN) (rows dataset))),
               w1))).
Proof.
  intros Hload dataset.
  assert (Hcols : columns dataset = columns d)
    by (unfold dataset; destruct dropna; reflexivity).
  assert (Hdts : dtypes dataset = dtypes d)
    by (unfold dataset; destruct dropna; reflexivity).
  rewrite !fetch_data_bind, Hload. split; [reflexivity|]. split.
  - intros r w'. unfold shape_result, DataFrame_drop, DataFrame_getitem.
    fold dataset. rewrite Hcols.
    destruct (existsb _ _); simpl; [|discriminate].
    destruct (column_index _ _) as [i|] eqn:Hi; simpl; [|discriminate].
    intros [= <- _]. split; [exact (column_index_In _ _ _ Hi)|eauto].
  - intros pre post Hrect Htyped Hc Hpre Hpost k dt.
    assert (Hr : rectangular dataset).
    { unfold dataset. destruct dropna; [apply dropna_rectangular|]; exact Hrect. }
    assert (Hxy : shape_result true dropna d
                  = Ok (Xy (map (fun row => map (cast_cell dt) (drop_nth k row))
                              (rows dataset))
                           (map (fun row => nth k row NaN) (rows dataset)))).
    { unfold shape_result, DataFrame_drop, DataFrame_getitem, DataFrame_values.
      fold dataset. rewrite Hcols, Hdts, Hc.
      assert (He : existsb (label_is "target") (pre ++ "target" :: post) = true).
      { apply existsb_exists. exists "target". split; [|reflexivity].
        apply in_or_app. right. left. reflexivity. }
      rewrite He, (column_index_unique _ _ _ Hpre). simpl.
      rewrite (filter_combine_unique _ _ _ _ Hpre Hpost)
        by (rewrite Htyped, Hc; reflexivity).
      fold k. fold dt. rewrite map_map.
      do 2 f_equal. apply map_ext_in. intros row Hin. f_equal.
      apply (filter_combine_unique _ _ _ _ Hpre Hpost).
      unfold rectangular in Hr. rewrite List.Forall_forall in Hr.
      rewrite (Hr _ Hin), Hcols, Hc. reflexivity. }
    rewrite Hxy. split; [reflexivity|].
    intros Hdt. do 3 f_equal. apply map_ext. intros row.
    rewrite <- (map_id (drop_nth k row)) at 2.
    apply map_ext. intros c. unfold cast_cell.
    destruct dt; [reflexivity|contradiction|reflexivity].
Qed.
End Properties.

(** ** Diff-reporter *)

Section DiffReporter.

Lemma path_root_cases p :
  path_root p = [] \/ path_root p = ["/"] \/ path_root p = ["//"].
Proof.
  unfold path_root. destruct (leading_seps p) as [|[|[|n]]]; auto.
Qed.

Lemma item_before_last_two (x y : string) (l : list string) :
  exists d, item_before_last (x :: y :: l) = Ok d.
Proof.
  unfold item_before_last.
  assert (Hlen : length (rev (x :: y :: l)) = S (S (length l)))
    by (rewrite length_rev; reflexivity).
  destruct (rev (x :: y :: l)) as [|a [|b l']]; try discriminate Hlen.
  eauto.
Qed.

(** Under [datasets], a file name that ends in [.tsv.gz] or is
    [metadata.yaml] has a parent component: [parts[-2]] exists. *)
Lemma parent_exists line :
  item_first (Path_parts line) = Ok "datasets" ->
  str_endswith (Path_name line) ".tsv.gz" = true
  \/ Path_name line = "metadata.yaml" ->
  exists d, item_before_last (Path_parts line) = Ok d.
Proof.
  unfold Path_name, Path_parts.
  destruct (path_root_cases line) as [-> | [-> | ->]];
    [|discriminate|discriminate].
  simpl. destruct (List.filter is_component (str_split_sep line))
    as [|x [|y l]]; simpl.
  - discriminate.
  - intros [= ->]. intros [Hd|Hd]; discriminate Hd.
  - intros _ _. apply item_before_last_two.
Qed.

Lemma visit_path_spec sets line :
  Path_parts line <> [] ->
  exists sets',
    visit_path sets line = Ok sets'
    /\ (forall n, n ∈ fst sets' <-> n ∈ fst sets \/ changed_data line n)
    /\ (forall n, n ∈ snd sets' <-> n ∈ snd sets \/ changed_metadata line n).
Proof.
  intros Hparts. unfold visit_path.
  destruct (item_first (Path_parts line)) as [first|e] eqn:Hfirst.
  2: { unfold item_first in Hfirst.
       destruct (Path_parts line); [contradiction|discriminate]. }
  simpl. destruct (String.eqb_spec first "datasets") as [->|Hne]; simpl.
  - destruct (str_endswith (Path_name line) ".tsv.gz") eqn:He;
      destruct (String.eqb_spec (Path_name line) "metadata.yaml") as [Hm|Hm].
    + rewrite Hm in He. discriminate He.
    + destruct (parent_exists line Hfirst (or_introl He)) as [d Hd].
      rewrite Hd. simpl. eexists. split; [reflexivity|]. simpl.
      unfold changed_data, changed_metadata. split.
      * intros n. rewrite elem_of_union, elem_of_singleton.
        split.
        -- intros [->|Hn]; auto.
        -- intros [Hn|(_ & _ & Hc)]; [auto|].
           rewrite Hd in Hc. injection Hc as ->. auto.
      * intros n. split; [auto|]. intros [Hn|(_ & Hc & _)]; [auto|contradiction].
    + destruct (parent_exists line Hfirst (or_intror Hm)) as [d Hd].
      rewrite Hd. simpl. eexists. split; [reflexivity|]. simpl.
      unfold changed_data, changed_metadata. split.
      * intros n. split; [auto|]. intros [Hn|(_ & Hc & _)]; [auto|].
        rewrite He in Hc. discriminate Hc.
      * intros n. rewrite elem_of_union, elem_of_singleton.
        split.
        -- intros [->|Hn]; auto.
        -- intros [Hn|(_ & _ & Hc)]; [auto|].
           rewrite Hd in Hc. injection Hc as ->. auto.
    + eexists. split; [reflexivity|].
      unfold changed_data, changed_metadata.
      split; intros n; (split; [auto|]).
      * intros [Hn|(_ & Hc & _)]; [auto|]. rewrite He in Hc. discriminate Hc.
      * intros [Hn|(_ & Hc & _)]; [auto|contradiction].
  - exists sets. split; [reflexivity|].
    unfold changed_data, changed_metadata.
    split; intros n; (split; [auto|]);
      (intros [Hn|(Hc & _)]; [exact Hn|]);
      rewrite Hfirst in Hc; injection Hc as Hc; contradiction.
Qed.

Lemma visit_paths_spec lines : forall sets,
  Forall (fun line => Path_parts line <> []) lines ->
  exists sets',
    visit_paths sets lines = Ok sets'
    /\ (forall n, n ∈ fst sets' <->
          n ∈ fst sets \/ exists line, In line lines /\ changed_data line n)
    /\ (forall n, n ∈ snd sets' <->
          n ∈ snd sets \/ exists line, In line lines /\ changed_metadata line n).
Proof.
  induction lines as [|line lines IH]; intros sets Hall.
  - exists sets. split; [reflexivity|].
    split; intros n; (split; [auto|]); intros [Hn|(l & [] & _)]; exact Hn.
  - apply List.Forall_cons_iff in Hall as [Hline Hall].
    destruct (visit_path_spec sets line Hline) as (s1 & Hv & Hd1 & Hm1).
    destruct (IH s1 Hall) as (s2 & Hvs & Hd2 & Hm2).
    exists s2. simpl. rewrite Hv. simpl. split; [exact Hvs|].
    split; intros n.
    + rewrite Hd2, Hd1. split.
      * intros [[Hn|Hc]|(l & Hin & Hc)];
          [ left; exact Hn
          | right; exists line; split; [left; reflexivity|exact Hc]
          | right; exists l; split; [right; exact Hin|exact Hc] ].
      * intros [Hn|(l & [<-|Hin] & Hc)];
          [ left; left; exact Hn
          | left; right; exact Hc
          | right; exists l; split; [exact Hin|exact Hc] ].
    + rewrite Hm2, Hm1. split.
      * intros [[Hn|Hc]|(l & Hin & Hc)];
          [ left; exact Hn
          | right; exists line; split; [left; reflexivity|exact Hc]
          | right; exists l; split; [right; exact Hin|exact Hc] ].
      * intros [Hn|(l & [<-|Hin] & Hc)];
          [ left; left; exact Hn
          | left; right; exact Hc
          | right; exists l; split; [exact Hin|exact Hc] ].
Qed.

Lemma sorted_In (s : gset string) n : In n (sorted s) <-> n ∈ s.
Proof.
  unfold sorted. rewrite <- list_elem_of_In.
  rewrite (merge_sort_Permutation String.le (elements s)).
  apply elem_of_elements.
Qed.

Lemma sorted_NoDup (s : gset string) : NoDup (sorted s).
Proof.
  unfold sorted.
  rewrite (merge_sort_Permutation String.le (elements s)).
  apply NoDup_elements.
Qed.

Lemma sorted_ascending (s : gset string) : StronglySorted String.le (sorted s).
Proof. unfold sorted. apply StronglySorted_merge_sort; apply _. Qed.

(** C9.  On the output of the revision-history query, each of whose
    lines names a path, [get_updated_datasets] returns two lists that
    are duplicate-free and ascending, and a name is listed exactly when
    some line under [datasets] reports it: lines whose first component
    is not [datasets] contribute nothing. *)
Theorem get_updated_datasets_sorted_unique (out : string) :
  Forall (fun line => Path_parts line <> []) (diff_lines out) ->
  exists changed_datasets changed_metadatas,
    get_updated_datasets (Ok out) = Ok (changed_datasets, changed_metadatas)
    /\ NoDup changed_datasets
    /\ StronglySorted String.le changed_datasets
    /\ NoDup changed_metadatas
    /\ StronglySorted String.le changed_metadatas
    /\ (forall n, In n changed_datasets <->
          exists line, In line (diff_lines out) /\ changed_data line n)
    /\ (forall n, In n changed_metadatas <->
          exists line, In line (diff_lines out) /\ changed_metadata line n).
Proof.
  intros Hall. unfold get_updated_datasets. simpl.
  destruct (visit_paths_spec (diff_lines out) (∅, ∅) Hall)
    as (sets & Hv & Hd & Hm).
  unfold diff_lines in Hv. rewrite Hv. simpl.
  exists (sorted (fst sets)), (sorted (snd sets)).
  split; [reflexivity|].
  split; [apply sorted_NoDup|]. split; [apply sorted_ascending|].
  split; [apply sorted_NoDup|]. split; [apply sorted_ascending|].
  split; intros n; rewrite sorted_In.
  - rewrite Hd. simpl. split; [|auto].
    intros [Hn|Hc]; [|exact Hc]. apply not_elem_of_empty in Hn. destruct Hn.
  - rewrite Hm. simpl. split; [|auto].
    intros [Hn|Hc]; [|exact Hc]. apply not_elem_of_empty in Hn. destruct Hn.
Qed.

End DiffReporter.

(** ** The properties on the sample data *)

(** C2.  The claim is that a call with every constraint omitted returns
    the [dataset] column of the summary table and that an unsatisfiable
    constraint gives the empty list.  On the sample table (two rows, the
    larger with 506 instances) the code returns neither: both calls stop
    at line 174 with [NameError] for [feat_Min]. *)
Theorem filter_datasets_sample_raises :
  fst (filter_datasets (H := sample_env)
         PNone PNone PNone PNone PNone PNone PNone PNone PNone empty_world)
  = Raise (NameError "feat_Min")
  /\ fst (filter_datasets (H := sample_env)
            (PInt 1000) PNone PNone PNone PNone PNone PNone PNone PNone empty_world)
     = Raise (NameError "feat_Min")
  /\ DataFrame_getitem summary_frame "dataset" = Ok [Str "iris"; Str "boston"].
Proof. repeat split; vm_compute; reflexivity. Qed.



Lemma fetch_data_dropna_witness :
  (true = true ->
   fetched_complete (Xy [[Num 5; Num 1]; [Num 6; Num 5]] [Num 0; Num 2]))
  /\ (true = false ->
      fetched_rows (Xy [[Num 5; Num 1]; [Num 6; Num 5]] [Num 0; Num 2])
      = length (rows iris_frame)).
Proof.
  eapply (fetch_data_dropna (H := sample_env)
            "iris" true None true empty_world).
  - repeat constructor.
  - vm_compute. reflexivity.
  - vm_compute. reflexivity.
Defined.


Lemma fetch_data_unknown_keeps_fs_witness :
  fs (snd (fetch_data (H := sample_env) "ghost" false (Some "cache") true
             empty_world))
  = fs empty_world.
Proof.
  apply (fetch_data_unknown_keeps_fs (H := sample_env)
           "ghost" false (Some "cache") true).
  vm_compute. reflexivity.
Defined.


Lemma fetch_data_return_X_y_witness :
  fetch_data (H := sample_env) "iris" true None true empty_world
  = (Ok (Xy [[Num 5; Num 1]; [Num 6; Num 5]] [Num 0; Num 2]),
     {| fs := ∅; net_log := [iris_url; iris_url] |}).
Proof.
  pose proof (fetch_data_return_X_y (H := sample_env)
                "iris" None true empty_world
                {| fs := ∅; net_log := [iris_url; iris_url] |} iris_frame) as Hw.
  destruct Hw as (_ & _ & Hxy); [vm_compute; reflexivity|].
  destruct (Hxy ["sepal"] ["petal"]) as [Hcast _].
  - repeat constructor.
  - reflexivity.
  - reflexivity.
  - intros [Hc|[]]. discriminate Hc.
  - intros [Hc|[]]. discriminate Hc.
  - exact Hcast.
Defined.

(** C8 as first stated, with the features being the cells of the other
    columns as they are, fails: beside the float column [weight] the
    integer [2^53 + 1] of column [id] comes back as the float [2^53]. *)
Lemma fetch_data_return_X_y_counterexample :
  fst (fetch_data (H := wide_env) "iris" true None false
         {| fs := ∅; net_log := [] |})
  = Ok (Xy [[Num 9007199254740992; Num (1 # 2)]] [Int 1])
  /\ rows wide_frame = [[Int 9007199254740993; Num (1 # 2); Int 1]]
  /\ [[Num 9007199254740992; Num (1 # 2)]]
     <> [[Int 9007199254740993; Num (1 # 2)]].
Proof.
  split; [vm_compute; reflexivity|]. split; [reflexivity|]. discriminate.
Qed.

Lemma get_updated_datasets_sorted_unique_witness :
  exists changed_datasets changed_metadatas,
    get_updated_datasets (Ok sample_diff)
    = Ok (changed_datasets, changed_metadatas)
    /\ NoDup changed_datasets
    /\ StronglySorted String.le changed_datasets
    /\ NoDup changed_metadatas
    /\ StronglySorted String.le changed_metadatas
    /\ (forall n, In n changed_datasets <->
          exists line, In line (diff_lines sample_diff) /\ changed_data line n)
    /\ (forall n, In n changed_metadatas <->
          exists line, In line (diff_lines sample_diff) /\ changed_metadata line n).
Proof.
  apply (get_updated_datasets_sorted_unique sample_diff).
  vm_compute. repeat constructor; discriminate.
Defined.

(** * Further properties of the fetcher *)

Section FetcherMore.
Context `{Env}.


(** What a download leaves in the log: nothing when the name is not in
    the Catalog, one request when the probe fails or is refused, two
    when the body is read as well. *)
Lemma download_log name w :
  let url := format_dataset_url GITHUB_URL name suffix in
  fs (snd (download name w)) = fs w
  /\ ((fst (download name w) = Raise UnknownDataset
       /\ list_contains name dataset_names = false
       /\ snd (download name w) = w)
      \/ ((exists e, fst (download name w) = Raise e)
          /\ list_contains name dataset_names = true
          /\ net_log (snd (download name w)) = net_log w ++ [url])
      \/ (list_contains name dataset_names = true
          /\ net_log (snd (download name w)) = net_log w ++ [url; url])).
Proof.
  intros url. unfold download. fold url.
  destruct (list_contains name dataset_names); [|auto].
  destruct (remote url) as [[s body]|]; simpl.
  - destruct (s =? 200)%Z; simpl.
    + split; [reflexivity|]. right. right. split; [reflexivity|].
      rewrite <- app_assoc. reflexivity.
    + split; [reflexivity|]. right. left. eauto.
  - split; [reflexivity|]. right. left. eauto.
Qed.




(** X1.  The Catalog is consulted before the network: for a name that
    is not in the Catalog, with no cache root or with nothing at the
    cache path, the call raises [UnknownDataset] and the world is
    exactly as before, no request made and nothing written. *)
Theorem fetch_data_unknown_name_offline
    (dataset_name : string) (return_X_y : bool)
    (local_cache_dir : option string) (dropna : bool) (w : world) :
  list_contains dataset_name dataset_names = false ->
  match local_cache_dir with
  | None => True
  | Some root => fs w !! dataset_path root dataset_name = None
  end ->
  fetch_data dataset_name return_X_y local_cache_dir dropna w
  = (Raise UnknownDataset, w).
Proof.
  intros Hcat Hmiss. rewrite fetch_data_bind.
  destruct local_cache_dir as [root|].
  - rewrite (load_dataset_miss _ _ _ Hmiss). unfold bind, download.
    rewrite Hcat. reflexivity.
  - rewrite load_dataset_no_cache. unfold download. rewrite Hcat. reflexivity.
Qed.

(** X2.  Every request of [fetch_data] goes to the URL of the dataset,
    and there are at most two of them; a call that gets its dataset
    (lines 63-87 complete) without finding the file in the cache makes
    exactly two, the probe of [get_dataset_url] and the download of
    [read_csv]. *)
Theorem fetch_data_requests
    (dataset_name : string) (return_X_y : bool)
    (local_cache_dir : option string) (dropna : bool) (w : world) :
  let url := format_dataset_url GITHUB_URL dataset_name suffix in
  let w' := snd (fetch_data dataset_name return_X_y local_cache_dir dropna w) in
  (net_log w' = net_log w \/ net_log w' = net_log w ++ [url]
   \/ net_log w' = net_log w ++ [url; url])
  /\ (forall d w1,
        load_dataset dataset_name local_cache_dir w = (Ok d, w1) ->
        match local_cache_dir with
        | None => True
        | Some root => fs w !! dataset_path root dataset_name = None
        end ->
        net_log w' = net_log w ++ [url; url]).
Proof.
  intros url w'. unfold w'. rewrite fetch_data_world.
  pose proof (download_log dataset_name w) as [_ Hlog]. fold url in Hlog.
  destruct local_cache_dir as [root|].
  - destruct (fs w !! dataset_path root dataset_name) as [[content|]|] eqn:Hf.
    + rewrite (load_dataset_hit _ _ _ _ Hf). simpl.
      split; [auto|]. intros d w1 _ Hc. discriminate Hc.
    + rewrite (load_dataset_dir _ _ _ Hf). simpl.
      split; [auto|]. intros d w1 _ Hc. discriminate Hc.
    + rewrite (load_dataset_miss _ _ _ Hf). unfold bind.
      destruct (download dataset_name w) as [[d0|e] w0] eqn:Hdl; simpl in Hlog.
      * assert (Hw0 : net_log w0 = net_log w ++ [url; url]).
        { destruct Hlog as [(Hc & _)|[([e He] & _)|(_ & Hl)]];
            [discriminate Hc|discriminate He|exact Hl]. }
        destruct (cache_store_cases d0 (dataset_path root dataset_name) w0)
          as [(w2 & -> & _ & Hl)|(w2 & -> & Hl)]; simpl; rewrite Hl, Hw0;
          (split; [auto|]); intros; reflexivity.
      * simpl. split.
        -- destruct Hlog as [(_ & _ & ->)|[(_ & _ & Hl)|(_ & Hl)]]; auto.
        -- intros d w1 Hc. discriminate Hc.
  - rewrite load_dataset_no_cache.
    destruct (download dataset_name w) as [[d0|e] w0] eqn:Hdl; simpl in *.
    + assert (Hw0 : net_log w0 = net_log w ++ [url; url]).
      { destruct Hlog as [(Hc & _)|[([e He] & _)|(_ & Hl)]];
          [discriminate Hc|discriminate He|exact Hl]. }
      split; [auto|]. intros. exact Hw0.
    + split.
      * destruct Hlog as [(_ & _ & ->)|[(_ & _ & Hl)|(_ & Hl)]]; auto.
      * intros d w1 Hc. discriminate Hc.
Qed.





Lemma filter_all_true {A : Type} (f : A -> bool) (l : list A) :
  Forall (fun x => f x = true) l -> List.filter f l = l.
Proof.
  induction 1 as [|x l Hx _ IH]; simpl; [reflexivity|].
  rewrite Hx, IH. reflexivity.
Qed.

Lemma filter_sublist {A : Type} (f : A -> bool) (l : list A) :
  sublist (List.filter f l) l.
Proof.
  induction l as [|x l IH]; simpl; [constructor|].
  destruct (f x); [apply sublist_skip|apply sublist_cons]; exact IH.
Qed.

Lemma drop_cells_width label pre post (r : list cell) :
  ~ In label pre -> ~ In label post ->
  length r = length (pre ++ label :: post) ->
  length (drop_cells label (pre ++ label :: post) r) = length (pre ++ post).
Proof.
  intros Hpre Hpost Hlen.
  rewrite (drop_cells_unique _ _ _ _ Hpre Hpost Hlen).
  rewrite length_app, firstn_length_le, length_skipn;
    rewrite Hlen, !length_app; simpl; lia.
Qed.

(** X7.  In the separated form the features and the labels go row by
    row: [X] and [y] have the same number of entries, as many as the
    frame has rows after lines 89-90; and when [target] labels exactly
    one column of a rectangular source, every row of [X] is one cell
    narrower than the frame. *)
Theorem fetch_data_X_y_shape
    (dataset_name : string) (local_cache_dir : option string)
    (dropna : bool) (w w1 w' : world) (d : DataFrame)
    (X : list (list cell)) (y : list cell) :
  load_dataset dataset_name local_cache_dir w = (Ok d, w1) ->
  fetch_data dataset_name true local_cache_dir dropna w = (Ok (Xy X y), w') ->
  length X = length y
  /\ length y = length (rows (if dropna then DataFrame_dropna d else d))
  /\ (forall pre post,
        rectangular d ->
        columns d = pre ++ "target" :: post ->
        ~ In "target" pre -> ~ In "target" post ->
        Forall (fun row => S (length row) = length (columns d)) X).
Proof.
  intros Hload. rewrite fetch_data_bind, Hload.
  unfold shape_result, DataFrame_drop, DataFrame_getitem.
  set (dataset := if dropna then DataFrame_dropna d else d).
  assert (Hcols : columns dataset = columns d)
    by (unfold dataset; destruct dropna; reflexivity).
  destruct (existsb _ _); simpl; [|discriminate].
  destruct (column_index _ _) as [i|]; simpl; [|discriminate].
  intros [= <- <- _]. unfold DataFrame_values. simpl. rewrite !length_map.
  split; [reflexivity|]. split; [reflexivity|].
  intros pre post Hrect Hc Hpre Hpost.
  assert (Hr : rectangular dataset).
  { unfold dataset. destruct dropna; [apply dropna_rectangular|]; exact Hrect. }
  apply List.Forall_forall. intros row Hin.
  apply in_map_iff in Hin as [row1 [<- Hin]].
  apply in_map_iff in Hin as [row0 [<- Hin]].
  unfold rectangular in Hr. rewrite List.Forall_forall in Hr.
  rewrite length_map, Hcols, Hc, drop_cells_width; [|exact Hpre|exact Hpost|].
  - rewrite !length_app. simpl. lia.
  - rewrite (Hr _ Hin), Hcols, Hc. reflexivity.
Qed.

(** X8.  For a source without missing values the flag [dropna] makes no
    difference: the call with [dropna] set and the call with [dropna]
    unset give the same result and the same world. *)
Theorem fetch_data_dropna_complete_source
    (dataset_name : string) (return_X_y : bool)
    (local_cache_dir : option string) (w w1 : world) (d : DataFrame) :
  load_dataset dataset_name local_cache_dir w = (Ok d, w1) ->
  Forall (fun row => row_complete row = true) (rows d) ->
  fetch_data dataset_name return_X_y local_cache_dir true w
  = fetch_data dataset_name return_X_y local_cache_dir false w.
Proof.
  intros Hload Hc. rewrite !fetch_data_bind, Hload. f_equal.
  unfold shape_result.
  assert (Hd : DataFrame_dropna d = d).
  { unfold DataFrame_dropna. rewrite (filter_all_true _ _ Hc).
    destruct d; reflexivity. }
  rewrite Hd. reflexivity.
Qed.

(** X9.  The frame a call returns has the columns of the parsed source
    and a sub-sequence of its rows, in the same order: rows are dropped
    at most, never added, changed or moved. *)
Theorem fetch_data_rows_sublist
    (dataset_name : string) (local_cache_dir : option string)
    (dropna : bool) (w w1 w' : world) (d dataset : DataFrame) :
  load_dataset dataset_name local_cache_dir w = (Ok d, w1) ->
  fetch_data dataset_name false local_cache_dir dropna w = (Ok (Frame dataset), w') ->
  columns dataset = columns d
  /\ sublist (rows dataset) (rows d)
  /\ (dropna = false -> dataset = d).
Proof.
  intros Hload. rewrite fetch_data_bind, Hload. unfold shape_result.
  intros [= <- _]. destruct dropna; simpl.
  - split; [reflexivity|]. split; [apply filter_sublist|discriminate].
  - split; [reflexivity|]. split; [reflexivity|]. reflexivity.
Qed.

(** X19.  [get_dataset_url] makes one request and nothing else.  What
    it returns is the formatted URL, and only when the remote answered
    that URL with status 200; it raises [UnknownDataset] exactly when
    the remote answered with another status, a 2xx one included; the
    body of the answer plays no part. *)
Theorem get_dataset_url_probe
    (base dataset_name sfx : string) (w w' : world) (r : result string) :
  get_dataset_url base dataset_name sfx w = (r, w') ->
  let url := format_dataset_url base dataset_name sfx in
  w' = {| fs := fs w; net_log := net_log w ++ [url] |}
  /\ (forall u, r = Ok u ->
        u = url /\ exists body, remote url = Some (200%Z, body))
  /\ (r = Raise UnknownDataset <->
        exists status body, remote url = Some (status, body) /\ status <> 200%Z).
Proof.
  intros Hg url. revert Hg.
  unfold get_dataset_url, requests_get, raise, ret, bind, log_request.
  cbv zeta. fold url. intros Hg.
  destruct (remote url) as [[s body]|].
  - destruct (Z.eqb_spec s 200) as [->|Hs]; simpl in Hg;
      injection Hg as <- <-; (split; [reflexivity|]).
    + split.
      * intros u [= <-]. eauto.
      * split; [discriminate|]. intros (s & b & [= <- _] & Hs). contradiction.
    + split; [discriminate|]. split; [eauto|reflexivity].
  - injection Hg as <- <-. split; [reflexivity|].
    split; [discriminate|]. split; [discriminate|].
    intros (s & b & Hc & _). discriminate Hc.
Qed.
End FetcherMore.

(** * Further properties of the cache path *)

Section CachePath.

Lemma str_app_cons (x : ascii) (a b : string) :
  String x a +:+ b = String x (a +:+ b).
Proof. reflexivity. Qed.

Lemma str_app_assoc (a b c : string) : (a +:+ b) +:+ c = a +:+ (b +:+ c).
Proof.
  induction a as [|x a IH]; [reflexivity|].
  rewrite !str_app_cons. f_equal. exact IH.
Qed.

Lemma str_length_app (a b : string) :
  String.length (a +:+ b) = (String.length a + String.length b)%nat.
Proof.
  induction a as [|x a IH]; [reflexivity|].
  rewrite str_app_cons. simpl. f_equal. exact IH.
Qed.

Lemma str_endswith_go_app (a b suf : string) (k : nat) :
  str_endswith_go (a +:+ b) suf (String.length a + k) = str_endswith_go b suf k.
Proof.
  induction a as [|x a IH]; [reflexivity|].
  rewrite str_app_cons. simpl. exact IH.
Qed.

Lemma str_endswith_app (a b suf : string) :
  (String.length suf <= String.length b)%nat ->
  str_endswith (a +:+ b) suf = str_endswith b suf.
Proof.
  intros Hle. unfold str_endswith. rewrite str_length_app.
  replace (String.length a + String.length b - String.length suf)%nat
    with (String.length a + (String.length b - String.length suf))%nat by lia.
  apply str_endswith_go_app.
Qed.

Lemma str_endswith_suffix (a b : string) : str_endswith (a +:+ b) b = true.
Proof.
  rewrite str_endswith_app by lia. unfold str_endswith.
  rewrite Nat.sub_diag.
  destruct b; [reflexivity|]. unfold str_endswith_go. apply String.eqb_refl.
Qed.

Lemma str_startswith_app (s t : string) :
  str_nonempty s = true ->
  str_startswith (s +:+ t) "/" = str_startswith s "/".
Proof.
  destruct s as [|c s]; [discriminate|]. intros _.
  rewrite str_app_cons. unfold str_startswith.
  change (String.prefix "/" (String c (s +:+ t)))
    with (if ascii_dec "/" c then String.prefix "" (s +:+ t) else false).
  change (String.prefix "/" (String c s))
    with (if ascii_dec "/" c then String.prefix "" s else false).
  destruct (ascii_dec "/" c); [|reflexivity].
  destruct s, t; reflexivity.
Qed.

(** X10.  The cache is laid out like the remote: for a cache root that
    is not empty and does not end in a separator, and a name that is not
    empty and neither starts nor ends with a separator, the cache path
    is [<root>/<name>/<name>.tsv.gz], the string that
    [get_dataset_url] builds from a base in place of the root. *)
Theorem dataset_path_mirrors_url (local_cache_dir dataset_name : string) :
  str_nonempty local_cache_dir = true ->
  str_endswith local_cache_dir "/" = false ->
  str_nonempty dataset_name = true ->
  str_startswith dataset_name "/" = false ->
  str_endswith dataset_name "/" = false ->
  dataset_path local_cache_dir dataset_name
  = format_dataset_url local_cache_dir dataset_name suffix.
Proof.
  intros Hr1 Hr2 Hn1 Hn2 Hn3.
  assert (Hlen : (1 <= String.length dataset_name)%nat)
    by (destruct dataset_name; [discriminate|simpl; lia]).
  unfold dataset_path, os_path_join, format_dataset_url. simpl.
  unfold join_step at 2. rewrite Hn2, Hr1, Hr2. simpl.
  unfold join_step.
  rewrite (str_startswith_app _ _ Hn1), Hn2.
  assert (Hne : str_nonempty (local_cache_dir +:+ "/" +:+ dataset_name) = true)
    by (destruct local_cache_dir; [discriminate|reflexivity]).
  rewrite Hne. simpl.
  rewrite (str_endswith_app local_cache_dir ("/" +:+ dataset_name) "/")
    by (simpl; lia).
  rewrite (str_endswith_app "/" dataset_name "/") by exact Hlen.
  rewrite Hn3. rewrite !str_app_assoc. reflexivity.
Qed.

(** X11.  A name that starts with a separator leaves the cache root
    behind: [os.path.join] restarts at an absolute component, so the
    cache path is the name followed by [.tsv.gz], whatever the root. *)
Theorem dataset_path_absolute_name (local_cache_dir dataset_name : string) :
  str_startswith dataset_name "/" = true ->
  dataset_path local_cache_dir dataset_name = dataset_name +:+ suffix.
Proof.
  intros Hs.
  assert (Hn : str_nonempty dataset_name = true)
    by (destruct dataset_name; [discriminate|reflexivity]).
  unfold dataset_path, os_path_join. simpl.
  unfold join_step at 2. rewrite Hs.
  unfold join_step. rewrite (str_startswith_app _ _ Hn), Hs. reflexivity.
Qed.

End CachePath.

(** * Further properties of the diff-reporter *)

Section DiffReporterMore.

Lemma visit_path_no_parts sets line :
  Path_parts line = [] -> visit_path sets line = Raise IndexError.
Proof. intros Hp. unfold visit_path. rewrite Hp. reflexivity. Qed.

(** The loop either visits every line, or stops with [IndexError] at a
    line without path components. *)
Lemma visit_paths_cases lines : forall sets,
  (Forall (fun line => Path_parts line <> []) lines
   /\ exists sets', visit_paths sets lines = Ok sets')
  \/ (Exists (fun line => Path_parts line = []) lines
      /\ visit_paths sets lines = Raise IndexError).
Proof.
  induction lines as [|line lines IH]; intros sets.
  - left. split; [constructor|]. exists sets. reflexivity.
  - simpl. destruct (Path_parts line) as [|x parts] eqn:Hp.
    + right. split; [left; exact Hp|].
      rewrite (visit_path_no_parts _ _ Hp). reflexivity.
    + assert (Hne : Path_parts line <> []) by (rewrite Hp; discriminate).
      destruct (visit_path_spec sets line Hne) as (s1 & -> & _). simpl.
      destruct (IH s1) as [(Hall & Hok)|(Hex & Hr)].
      * left. split; [constructor; assumption|exact Hok].
      * right. split; [right; exact Hex|exact Hr].
Qed.

Lemma Forall_Exists_parts lines :
  Forall (fun line => Path_parts line <> []) lines ->
  Exists (fun line => Path_parts line = []) lines -> False.
Proof.
  intros Hall Hex. apply List.Exists_exists in Hex as (line & Hin & Hp).
  rewrite List.Forall_forall in Hall. exact (Hall line Hin Hp).
Qed.

(** X12.  The only way [get_updated_datasets] fails on the text of the
    diff is [IndexError], and it fails exactly when some line of the
    text has no path component (a blank line, or a line such as
    [.]). *)
Theorem get_updated_datasets_fails_iff (out : string) :
  (forall e, get_updated_datasets (Ok out) = Raise e -> e = IndexError)
  /\ (get_updated_datasets (Ok out) = Raise IndexError
      <-> Exists (fun line => Path_parts line = []) (diff_lines out)).
Proof.
  unfold get_updated_datasets, diff_lines. simpl.
  destruct (visit_paths_cases (str_splitlines (str_rstrip out)) (∅, ∅))
    as [(Hall & sets & ->)|(Hex & ->)]; simpl.
  - split; [discriminate|]. split; [discriminate|].
    intros Hex. destruct (Forall_Exists_parts _ Hall Hex).
  - split; [intros e [= <-]; reflexivity|]. split; auto.
Qed.

Lemma visit_paths_same_lines lines1 lines2 :
  (forall line, In line lines1 <-> In line lines2) ->
  rbind (visit_paths (∅, ∅) lines1)
        (fun sets => Ok (sorted (fst sets), sorted (snd sets)))
  = rbind (visit_paths (∅, ∅) lines2)
          (fun sets => Ok (sorted (fst sets), sorted (snd sets))).
Proof.
  intros Hsame.
  destruct (visit_paths_cases lines1 (∅, ∅)) as [(Hall1 & _)|(Hex1 & ->)];
    destruct (visit_paths_cases lines2 (∅, ∅)) as [(Hall2 & _)|(Hex2 & ->)].
  - destruct (visit_paths_spec lines1 (∅, ∅) Hall1) as (s1 & -> & Hd1 & Hm1).
    destruct (visit_paths_spec lines2 (∅, ∅) Hall2) as (s2 & -> & Hd2 & Hm2).
    simpl.
    assert (Hfst : fst s1 = fst s2).
    { apply set_eq. intros n. rewrite Hd1, Hd2.
      split; (intros [Hn|(l & Hin & Hc)]; [left; exact Hn|right; exists l]);
        (split; [apply Hsame; exact Hin|exact Hc]). }
    assert (Hsnd : snd s1 = snd s2).
    { apply set_eq. intros n. rewrite Hm1, Hm2.
      split; (intros [Hn|(l & Hin & Hc)]; [left; exact Hn|right; exists l]);
        (split; [apply Hsame; exact Hin|exact Hc]). }
    rewrite Hfst, Hsnd. reflexivity.
  - exfalso. apply (Forall_Exists_parts lines1 Hall1).
    apply List.Exists_exists in Hex2 as (l & Hin & Hp).
    apply List.Exists_exists. exists l. split; [apply Hsame; exact Hin|exact Hp].
  - exfalso. apply (Forall_Exists_parts lines2 Hall2).
    apply List.Exists_exists in Hex1 as (l & Hin & Hp).
    apply List.Exists_exists. exists l. split; [apply Hsame; exact Hin|exact Hp].
  - reflexivity.
Qed.

(** X13.  The report depends only on which lines the diff has, not on
    their order or on repetitions: two outputs with the same set of
    lines give the same result, error included. *)
Theorem get_updated_datasets_set_of_lines (out1 out2 : string) :
  (forall line, In line (diff_lines out1) <-> In line (diff_lines out2)) ->
  get_updated_datasets (Ok out1) = get_updated_datasets (Ok out2).
Proof.
  intros Hsame. unfold get_updated_datasets. simpl.
  exact (visit_paths_same_lines _ _ Hsame).
Qed.

Lemma rstrip_all (P : ascii -> bool) (t : string) :
  str_forallb P t = true -> rstrip_chars P t = EmptyString.
Proof.
  induction t as [|c t IH]; simpl; [reflexivity|].
  intros Hc. apply andb_prop in Hc as [Hc Ht].
  rewrite (IH Ht), Hc. reflexivity.
Qed.

Lemma rstrip_app_all (P : ascii -> bool) (s t : string) :
  str_forallb P t = true -> rstrip_chars P (s +:+ t) = rstrip_chars P s.
Proof.
  intros Ht. induction s as [|c s IH].
  - simpl. exact (rstrip_all P t Ht).
  - rewrite str_app_cons. simpl. rewrite IH. reflexivity.
Qed.

(** X14.  White space at the end of the output is of no account: the
    report for an output followed by any run of blanks, tabs and line
    ends is the report for the output, and an output of white space
    alone gives two empty lists. *)
Theorem get_updated_datasets_trailing_whitespace (out ws : string) :
  str_forallb is_whitespace ws = true ->
  get_updated_datasets (Ok (out +:+ ws)) = get_updated_datasets (Ok out)
  /\ get_updated_datasets (Ok ws) = Ok ([], []).
Proof.
  intros Hws. unfold get_updated_datasets, str_rstrip. simpl.
  rewrite (rstrip_app_all _ out ws Hws), (rstrip_all _ ws Hws).
  split; reflexivity.
Qed.


Lemma str_forallb_app (P : ascii -> bool) (a b : string) :
  str_forallb P (a +:+ b) = str_forallb P a && str_forallb P b.
Proof.
  induction a as [|c a IH]; [reflexivity|].
  rewrite str_app_cons. simpl. rewrite IH. apply andb_assoc.
Qed.

Lemma str_nonempty_app_r (a b : string) :
  str_nonempty b = true -> str_nonempty (a +:+ b) = true.
Proof. destruct a; [auto|reflexivity]. Qed.

Lemma rstrip_app_keep (P : ascii -> bool) (s t : string) :
  rstrip_chars P t = t -> str_nonempty t = true ->
  rstrip_chars P (s +:+ t) = s +:+ t.
Proof.
  intros Ht Hne. induction s as [|c s IH]; [exact Ht|].
  rewrite str_app_cons. simpl. rewrite IH.
  pose proof (str_nonempty_app_r s t Hne) as Hst.
  destruct (s +:+ t); [discriminate|reflexivity].
Qed.

Lemma splitlines_one_line (s : string) :
  str_forallb (fun c => negb (is_linebreak c)) s = true ->
  str_nonempty s = true ->
  str_splitlines s = [s].
Proof.
  induction s as [|c s IH]; [discriminate|].
  intros Hall _. simpl in Hall. apply andb_prop in Hall as [Hc Hs].
  apply negb_true_iff in Hc. simpl. rewrite Hc.
  destruct s as [|c' s']; [reflexivity|].
  rewrite (IH Hs eq_refl). reflexivity.
Qed.

Lemma split_sep_component (comp : string) :
  str_forallb (fun c => negb (is_sep c)) comp = true ->
  str_split_sep comp = [comp].
Proof.
  induction comp as [|c comp IH]; [reflexivity|].
  intros Hall. simpl in Hall. apply andb_prop in Hall as [Hc Hs].
  apply negb_true_iff in Hc. simpl. rewrite Hc, (IH Hs). reflexivity.
Qed.

Lemma split_sep_first (comp rest : string) :
  str_forallb (fun c => negb (is_sep c)) comp = true ->
  str_split_sep (comp +:+ String sep rest) = comp :: str_split_sep rest.
Proof.
  induction comp as [|c comp IH]; [reflexivity|].
  intros Hall. simpl in Hall. apply andb_prop in Hall as [Hc Hs].
  apply negb_true_iff in Hc. rewrite str_app_cons. simpl.
  rewrite Hc, (IH Hs). reflexivity.
Qed.

Lemma plain_no_sep (s : string) :
  str_forallb plain_char s = true ->
  str_forallb (fun c => negb (is_sep c)) s = true.
Proof.
  induction s as [|c s IH]; [reflexivity|]. simpl. unfold plain_char at 1.
  intros Hall. apply andb_prop in Hall as [Hc Hs].
  apply andb_prop in Hc as [Hc _]. rewrite Hc, (IH Hs). reflexivity.
Qed.

Lemma plain_no_linebreak (s : string) :
  str_forallb plain_char s = true ->
  str_forallb (fun c => negb (is_linebreak c)) s = true.
Proof.
  induction s as [|c s IH]; [reflexivity|]. simpl. unfold plain_char at 1.
  intros Hall. apply andb_prop in Hall as [Hc Hs].
  apply andb_prop in Hc as [_ Hc]. rewrite Hc, (IH Hs). reflexivity.
Qed.

(** The one line [datasets/<name>/<file>], as the loop sees it. *)
Lemma dataset_line_parts (name file : string) :
  str_forallb plain_char name = true -> is_component name = true ->
  str_forallb plain_char file = true -> is_component file = true ->
  rstrip_chars is_whitespace file = file ->
  let line := "datasets/" +:+ name +:+ "/" +:+ file in
  diff_lines line = [line]
  /\ Path_parts line = ["datasets"; name; file]
  /\ Path_name line = file.
Proof.
  intros Hn Hcn Hf Hcf Hrf line.
  assert (Hfne : str_nonempty file = true)
    by (unfold is_component in Hcf; apply andb_prop in Hcf; tauto).
  assert (Hparts : Path_parts line = ["datasets"; name; file]).
  { unfold Path_parts, line.
    change (path_root ("datasets/" +:+ name +:+ "/" +:+ file)) with (@nil string).
    change ("datasets/" +:+ name +:+ "/" +:+ file)
      with ("datasets" +:+ String sep (name +:+ String sep file)).
    rewrite (split_sep_first "datasets") by reflexivity.
    rewrite (split_sep_first name) by (apply plain_no_sep; exact Hn).
    rewrite (split_sep_component file) by (apply plain_no_sep; exact Hf).
    simpl. rewrite Hcn, Hcf. reflexivity. }
  split; [|split; [exact Hparts|]].
  - unfold diff_lines, str_rstrip, line.
    assert (H1 : rstrip_chars is_whitespace ("/" +:+ file) = "/" +:+ file)
      by (apply rstrip_app_keep; assumption).
    assert (N1 : str_nonempty ("/" +:+ file) = true) by reflexivity.
    assert (H2 : rstrip_chars is_whitespace (name +:+ "/" +:+ file)
                 = name +:+ "/" +:+ file)
      by (apply rstrip_app_keep; assumption).
    assert (N2 : str_nonempty (name +:+ "/" +:+ file) = true)
      by (apply str_nonempty_app_r; exact N1).
    rewrite (rstrip_app_keep _ "datasets/" _ H2 N2).
    apply splitlines_one_line; [|reflexivity].
    rewrite !str_forallb_app.
    rewrite (plain_no_linebreak _ Hn), (plain_no_linebreak _ Hf). reflexivity.
  - unfold Path_name. rewrite Hparts.
    change (path_root line) with (@nil string). reflexivity.
Qed.

(** X15.  The diff-reporter reads the layout the fetcher writes: for a
    name that is a single path component without line ends, a diff
    that consists of the data file [datasets/<name>/<name>.tsv.gz]
    reports [name] as changed dataset and nothing else, and one that
    consists of [datasets/<name>/metadata.yaml] reports [name] as
    changed metadata and nothing else. *)
Theorem get_updated_datasets_one_dataset (name : string) :
  str_forallb plain_char name = true ->
  is_component name = true ->
  get_updated_datasets (Ok ("datasets/" +:+ name +:+ "/" +:+ name +:+ suffix))
  = Ok ([name], [])
  /\ get_updated_datasets (Ok ("datasets/" +:+ name +:+ "/" +:+ "metadata.yaml"))
     = Ok ([], [name]).
Proof.
  intros Hn Hcn.
  assert (Hne : str_nonempty name = true)
    by (unfold is_component in Hcn; apply andb_prop in Hcn; tauto).
  assert (Hfile : is_component (name +:+ suffix) = true).
  { destruct name as [|c n]; [discriminate|].
    rewrite str_app_cons. unfold is_component. simpl.
    destruct (Ascii.eqb c "."%char); [|reflexivity].
    destruct n; reflexivity. }
  split.
  - destruct (dataset_line_parts name (name +:+ suffix)) as (Hl & Hp & Hnm);
      [exact Hn|exact Hcn| |exact Hfile| |].
    { rewrite str_forallb_app, Hn. reflexivity. }
    { apply rstrip_app_keep; reflexivity. }
    unfold get_updated_datasets. simpl. unfold diff_lines in Hl. rewrite Hl.
    simpl. unfold visit_path. rewrite Hp, Hnm. simpl.
    rewrite str_endswith_suffix. simpl.
    assert (Hm : String.eqb (name +:+ suffix) "metadata.yaml" = false).
    { apply String.eqb_neq. intros Heq.
      pose proof (str_endswith_suffix name suffix) as He.
      rewrite Heq in He. discriminate He. }
    rewrite Hm. simpl. unfold sorted.
    rewrite union_empty_r_L, elements_singleton, elements_empty. reflexivity.
  - destruct (dataset_line_parts name "metadata.yaml") as (Hl & Hp & Hnm);
      [exact Hn|exact Hcn|reflexivity|reflexivity|reflexivity|].
    unfold get_updated_datasets. simpl. unfold diff_lines in Hl. rewrite Hl.
    simpl. unfold visit_path. rewrite Hp, Hnm. simpl. unfold sorted.
    rewrite union_empty_r_L, elements_singleton, elements_empty. reflexivity.
Qed.

(** X20.  The dataset name is the name of the parent directory, whatever
    that is: a data file that lies directly under [datasets] is
    reported as a change of a dataset called [datasets]. *)
Theorem get_updated_datasets_top_level_file (stem : string) :
  str_forallb plain_char stem = true ->
  str_nonempty stem = true ->
  get_updated_datasets (Ok ("datasets/" +:+ stem +:+ suffix))
  = Ok (["datasets"], []).
Proof.
  intros Hs Hne.
  set (file := stem +:+ suffix).
  assert (Hfne : str_nonempty file = true)
    by (apply str_nonempty_app_r; reflexivity).
  assert (Hfc : is_component file = true).
  { unfold file. destruct stem as [|c n]; [discriminate|].
    rewrite str_app_cons. unfold is_component. simpl.
    destruct (Ascii.eqb c "."%char); [|reflexivity].
    destruct n; reflexivity. }
  assert (Hfp : str_forallb plain_char file = true)
    by (unfold file; rewrite str_forallb_app, Hs; reflexivity).
  assert (Hfr : rstrip_chars is_whitespace file = file)
    by (apply rstrip_app_keep; reflexivity).
  assert (Hparts : Path_parts ("datasets/" +:+ file) = ["datasets"; file]).
  { unfold Path_parts.
    change (path_root ("datasets/" +:+ file)) with (@nil string).
    change ("datasets/" +:+ file) with ("datasets" +:+ String sep file).
    rewrite (split_sep_first "datasets") by reflexivity.
    rewrite (split_sep_component file) by (apply plain_no_sep; exact Hfp).
    simpl. rewrite Hfc. reflexivity. }
  assert (Hname : Path_name ("datasets/" +:+ file) = file).
  { unfold Path_name. rewrite Hparts.
    change (path_root ("datasets/" +:+ file)) with (@nil string). reflexivity. }
  assert (Hlines : str_splitlines (str_rstrip ("datasets/" +:+ file))
                   = ["datasets/" +:+ file]).
  { unfold str_rstrip. rewrite (rstrip_app_keep _ "datasets/" _ Hfr Hfne).
    apply splitlines_one_line; [|reflexivity].
    rewrite str_forallb_app, (plain_no_linebreak _ Hfp). reflexivity. }
  unfold get_updated_datasets. simpl. rewrite Hlines. simpl.
  unfold visit_path. rewrite Hparts, Hname. simpl.
  unfold file at 1. rewrite str_endswith_suffix. simpl.
  assert (Hm : String.eqb file "metadata.yaml" = false).
  { apply String.eqb_neq. intros Heq.
    pose proof (str_endswith_suffix stem suffix) as He. fold file in He.
    rewrite Heq in He. discriminate He. }
  rewrite Hm. simpl. unfold sorted.
  rewrite union_empty_r_L, elements_singleton, elements_empty. reflexivity.
Qed.
End DiffReporterMore.

(** * Further properties of the filter *)

Section FilterMore.
Context `{Env}.

Lemma cells_compare_raise op dt series v e :
  cells_compare op dt series v = Raise e -> e = TypeError.
Proof.
  induction series as [|c series IH]; simpl; [discriminate|].
  destruct (compare_cell op dt c v) as [b|e0] eqn:Hc; simpl.
  - destruct (cells_compare op dt series v) as [bs|e1]; simpl; [discriminate|].
    intros [= <-]. apply IH. reflexivity.
  - intros [= <-]. unfold compare_cell, incomparable in Hc.
    destruct v, c, dt, op; simpl in Hc; congruence.
Qed.

Lemma series_compare_raise op dt series v e :
  series_compare op dt series v = Raise e -> e = TypeError.
Proof.
  unfold series_compare.
  destruct dt, v, op; try discriminate; try apply cells_compare_raise;
    intros [= <-]; reflexivity.
Qed.

Lemma constrain_raise locals guard col op bound tempdf e g b :
  load_name locals guard = Ok g ->
  load_name locals bound = Ok b ->
  constrain locals guard col op bound tempdf = Raise e ->
  e = KeyError col \/ e = TypeError.
Proof.
  intros Hg Hb. unfold constrain, DataFrame_getitem. rewrite Hg. simpl.
  destruct (is_not_None g); [|discriminate].
  destruct (column_index col (columns tempdf)); simpl.
  - rewrite Hb. simpl.
    destruct (series_compare op _ _ b) as [mask|e0] eqn:Hs; simpl; [discriminate|].
    intros [= <-]. right. exact (series_compare_raise _ _ _ _ _ Hs).
  - intros [= <-]. left. reflexivity.
Qed.

(** X16.  Whatever the arguments and whatever the outcome,
    [filter_datasets] makes exactly one request, for the summary table,
    and leaves the file system alone: nothing is read from or written
    to a cache. *)
Theorem filter_datasets_one_request
    (obs_min obs_max feat_min feat_max class_min class_max
     endpt max_imbalance task : pyval) (w : world) :
  snd (filter_datasets obs_min obs_max feat_min feat_max class_min
         class_max endpt max_imbalance task w)
  = {| fs := fs w; net_log := net_log w ++ [summary_url] |}.
Proof.
  unfold filter_datasets, pd_read_csv_url, lift, bind, log_request.
  destruct (remote summary_url) as [[s body]|]; [|reflexivity].
  destruct ((200 <=? s)%Z && (s <? 300)%Z); [|reflexivity].
  destruct (read_csv_plain body); reflexivity.
Qed.

(** X17.  The exceptions [filter_datasets] can end in are few: the
    one raised by the retrieval of the table (an [OSError] from the
    transport, or the reader's own exception), [KeyError] for
    [#instances] or [TypeError] from the two constraints that are
    reached, or, in every other case, the [NameError] for [feat_Min]
    of line 174. *)
Theorem filter_datasets_error_kinds
    (obs_min obs_max feat_min feat_max class_min class_max
     endpt max_imbalance task : pyval) (w : world) (e : exn) :
  fst (filter_datasets obs_min obs_max feat_min feat_max class_min
         class_max endpt max_imbalance task w) = Raise e ->
  (fst (pd_read_csv_url read_csv_plain read_csv_plain_error summary_url w)
   = Raise e
   /\ (e = OSError \/ exists class_name, e = ReaderError class_name))
  \/ e = KeyError "#instances"
  \/ e = TypeError \/ e = NameError "feat_Min".
Proof.
  unfold filter_datasets, pd_read_csv_url, lift, bind.
  destruct (remote summary_url) as [[s body]|]; [|intros [= <-]; auto].
  destruct ((200 <=? s)%Z && (s <? 300)%Z); [|intros [= <-]; auto].
  destruct (read_csv_plain body) as [t|]; simpl; [|intros [= <-]; eauto 6].
  destruct (constrain _ "obs_min" _ _ _ t) as [t1|e1] eqn:H1; simpl.
  - destruct (constrain _ "obs_max" _ _ _ t1) as [t2|e2] eqn:H2; simpl.
    + intros [= <-]. auto 6.
    + intros [= <-].
      eapply constrain_raise in H2; [|reflexivity|reflexivity].
      destruct H2 as [->| ->]; auto 6.
  - intros [= <-].
    eapply constrain_raise in H1; [|reflexivity|reflexivity].
    destruct H1 as [->| ->]; auto 6.
Qed.

(** X18.  With [obs_min] and [obs_max] left out and the summary table
    retrieved, the call raises [NameError] for [feat_Min], whatever
    the table holds and whatever the other seven arguments are. *)
Theorem filter_datasets_name_error
    (feat_min feat_max class_min class_max endpt max_imbalance task : pyval)
    (w : world) (status : Z) (body : bytes) (table : DataFrame) :
  remote summary_url = Some (status, body) ->
  (200 <= status < 300)%Z ->
  read_csv_plain body = Some table ->
  fst (filter_datasets PNone PNone feat_min feat_max class_min class_max
         endpt max_imbalance task w)
  = Raise (NameError "feat_Min").
Proof.
  intros Hr [Hlo Hhi] Ht.
  unfold filter_datasets, pd_read_csv_url, lift, bind. rewrite Hr.
  apply Z.leb_le in Hlo. apply Z.ltb_lt in Hhi. rewrite Hlo, Hhi, Ht.
  reflexivity.
Qed.

End FilterMore.

(** * The further properties on the sample data *)

Lemma fetch_data_unknown_name_offline_witness :
  fetch_data (H := sample_env) "nope" false (Some "cache") true empty_world
  = (Raise UnknownDataset, empty_world).
Proof.
  apply (fetch_data_unknown_name_offline (H := sample_env)
           "nope" false (Some "cache") true empty_world).
  - reflexivity.
  - reflexivity.
Defined.

Lemma fetch_data_requests_witness :
  net_log (snd (fetch_data (H := sample_env) "iris" false None true empty_world))
  = net_log empty_world ++ [iris_url; iris_url].
Proof.
  apply (proj2 (fetch_data_requests (H := sample_env)
                  "iris" false None true empty_world)
           iris_frame {| fs := ∅; net_log := [iris_url; iris_url] |}).
  - vm_compute. reflexivity.
  - exact I.
Defined.





Lemma fetch_data_X_y_shape_witness :
  length [[Num 5; Num 1]; [Num 6; Num 5]] = length [Num 0; Num 2]
  /\ length [Num 0; Num 2] = length (rows (DataFrame_dropna iris_frame))
  /\ Forall (fun row => S (length row) = length (columns iris_frame))
       [[Num 5; Num 1]; [Num 6; Num 5]].
Proof.
  destruct (fetch_data_X_y_shape (H := sample_env)
              "iris" None true empty_world
              {| fs := ∅; net_log := [iris_url; iris_url] |}
              {| fs := ∅; net_log := [iris_url; iris_url] |}
              iris_frame [[Num 5; Num 1]; [Num 6; Num 5]] [Num 0; Num 2])
    as (H1 & H2 & H3).
  - vm_compute. reflexivity.
  - vm_compute. reflexivity.
  - split; [exact H1|]. split; [exact H2|].
    apply (H3 ["sepal"] ["petal"]).
    + repeat constructor.
    + reflexivity.
    + intros [Hc|[]]. discriminate Hc.
    + intros [Hc|[]]. discriminate Hc.
Defined.

Lemma fetch_data_dropna_complete_source_witness :
  fetch_data (H := bare_env) "iris" false None true {| fs := ∅; net_log := [] |}
  = fetch_data (H := bare_env) "iris" false None false {| fs := ∅; net_log := [] |}.
Proof.
  apply (fetch_data_dropna_complete_source (H := bare_env)
           "iris" false None {| fs := ∅; net_log := [] |}
           {| fs := ∅; net_log := [iris_url; iris_url] |} bare_frame).
  - vm_compute. reflexivity.
  - repeat constructor.
Defined.

Lemma fetch_data_rows_sublist_witness :
  columns iris_complete = columns iris_frame
  /\ sublist (rows iris_complete) (rows iris_frame)
  /\ (true = false -> iris_complete = iris_frame).
Proof.
  apply (fetch_data_rows_sublist (H := sample_env)
           "iris" None true empty_world
           {| fs := ∅; net_log := [iris_url; iris_url] |}
           {| fs := ∅; net_log := [iris_url; iris_url] |}).
  - vm_compute. reflexivity.
  - vm_compute. reflexivity.
Defined.

Lemma get_dataset_url_probe_witness :
  {| fs := ∅; net_log := [iris_url] |}
  = {| fs := fs empty_world; net_log := net_log empty_world ++ [iris_url] |}
  /\ exists body, remote (Env := sample_env) iris_url = Some (200%Z, body).
Proof.
  destruct (get_dataset_url_probe (H := sample_env)
              GITHUB_URL "iris" suffix empty_world
              {| fs := ∅; net_log := [iris_url] |} (Ok iris_url))
    as (Hw & Hok & _).
  - vm_compute. reflexivity.
  - split; [exact Hw|]. exact (proj2 (Hok iris_url eq_refl)).
Defined.

Lemma dataset_path_mirrors_url_witness :
  dataset_path "cache" "iris" = "cache/iris/iris.tsv.gz".
Proof.
  apply (dataset_path_mirrors_url "cache" "iris"); reflexivity.
Defined.

Lemma dataset_path_absolute_name_witness :
  dataset_path "cache" "/etc/iris" = "/etc/iris.tsv.gz".
Proof.
  apply (dataset_path_absolute_name "cache" "/etc/iris"). reflexivity.
Defined.

Lemma get_updated_datasets_fails_iff_witness :
  Exists (fun line => Path_parts line = [])
    (diff_lines (String "010"%char "datasets/a/a.tsv.gz")).
Proof.
  apply (proj2 (get_updated_datasets_fails_iff
                  (String "010"%char "datasets/a/a.tsv.gz"))).
  vm_compute. reflexivity.
Defined.

Lemma get_updated_datasets_set_of_lines_witness :
  get_updated_datasets
    (Ok ("datasets/a/a.tsv.gz" +:+ String "010"%char "README.md"))
  = get_updated_datasets
      (Ok ("README.md" +:+ String "010"%char "datasets/a/a.tsv.gz"
           +:+ String "010"%char "README.md")).
Proof.
  apply get_updated_datasets_set_of_lines.
  intros line. vm_compute. tauto.
Defined.

Lemma get_updated_datasets_trailing_whitespace_witness :
  get_updated_datasets (Ok (sample_diff +:+ String "010"%char " "))
  = get_updated_datasets (Ok sample_diff)
  /\ get_updated_datasets (Ok (String "010"%char " ")) = Ok ([], []).
Proof.
  apply (get_updated_datasets_trailing_whitespace sample_diff
           (String "010"%char " ")).
  reflexivity.
Defined.

Lemma get_updated_datasets_one_dataset_witness :
  get_updated_datasets (Ok "datasets/iris/iris.tsv.gz") = Ok (["iris"], [])
  /\ get_updated_datasets (Ok "datasets/iris/metadata.yaml") = Ok ([], ["iris"]).
Proof.
  apply (get_updated_datasets_one_dataset "iris"); reflexivity.
Defined.

Lemma get_updated_datasets_top_level_file_witness :
  get_updated_datasets (Ok "datasets/iris.tsv.gz") = Ok (["datasets"], []).
Proof.
  apply (get_updated_datasets_top_level_file "iris"); reflexivity.
Defined.

Lemma filter_datasets_error_kinds_witness :
  (fst (pd_read_csv_url (H := sample_env) read_csv_plain read_csv_plain_error
          summary_url empty_world)
   = Raise (NameError "feat_Min")
   /\ (NameError "feat_Min" = OSError
       \/ exists class_name, NameError "feat_Min" = ReaderError class_name))
  \/ NameError "feat_Min" = KeyError "#instances"
  \/ NameError "feat_Min" = TypeError
  \/ NameError "feat_Min" = NameError "feat_Min".
Proof.
  apply (filter_datasets_error_kinds (H := sample_env)
           (PInt 100) PNone PNone PNone PNone PNone PNone PNone PNone
           empty_world).
  vm_compute. reflexivity.
Defined.

Lemma filter_datasets_name_error_witness :
  fst (filter_datasets (H := sample_env)
         PNone PNone (PInt 3) PNone PNone PNone (PStr "binary") PNone PNone
         empty_world)
  = Raise (NameError "feat_Min").
Proof.
  apply (filter_datasets_name_error (H := sample_env)
           (PInt 3) PNone PNone PNone (PStr "binary") PNone PNone
           empty_world 200%Z summary_frame summary_frame).
  - reflexivity.
  - lia.
  - reflexivity.
Defined.
